(** * Gemini File Search RAG client

    A shallow embedding of [src/gemini_file_search.py] (class [GeminiRAG])
    and the properties of its session logic.

    The client is orchestration around a remote service, so the embedding
    has three layers:
    - the Python values that cross the service boundary (handles, the
      long-running import operation, the generation response);
    - the outside world: an immutable [Env] (local file system, [pathlib],
      and the remote service as an oracle answering each call from the
      history of effects so far) and a mutable [World] ([os.environ], the
      log of effects, standard output);
    - the methods, written in a state-and-exception monad over the object's
      fields and the world.

    The only unbounded loop of the class, the import poll of [upload_file],
    takes a fuel argument counting polls; [OutOfFuel] is the outcome of a
    run that is still waiting when the fuel is spent. *)

From stdpp Require Import gmap strings list sorting pretty.

(** ** Python values *)

(** Exceptions deriving from [Exception]. [RemoteError] stands for whatever
    the SDK raises when a remote call fails, [OSError] for what [pathlib]
    raises when a path cannot be examined (a name too long, a parent that
    cannot be read), [TypeError] for a comparison of [None] with a string;
    [str(e)] is the message. Asynchronous interruption
    ([KeyboardInterrupt], not an [Exception]) is outside the model. *)
Inductive exn : Type :=
| ValueError (msg : string)
| FileNotFoundError (msg : string)
| RemoteError (msg : string)
| OSError (msg : string)
| TypeError (msg : string).

Definition exn_str (e : exn) : string :=
  match e with
  | ValueError msg | FileNotFoundError msg | RemoteError msg
  | OSError msg | TypeError msg => msg
  end.

(** [types.FileSearchStore], of which the client reads [.name]. *)
Record FileSearchStore : Type := { fss_name : string }.

(** [types.File], of which the client reads [.name]. *)
Record File : Type := { f_name : string }.

(** The long-running import operation; [done] is the truth value of
    [operation.done]. *)
Record Operation : Type := { op_name : string; done : bool }.

(** Grounding metadata of a response. [retrieved_context] is [None] when
    the chunk has no such attribute or when its value is [None]: [hasattr]
    of [title] is false on both. [title] is [None] when the context has no
    such attribute, [Some None] when the attribute is there and holds
    [None] (as on the objects of the SDK, whose fields are always
    present), [Some (Some t)] when it holds the string [t]. *)
Record RetrievedContext : Type := { title : option (option string) }.
Record GroundingChunk : Type := { retrieved_context : option RetrievedContext }.
Record GroundingMetadata : Type :=
  { grounding_chunks : option (list GroundingChunk) }.
Record Candidate : Type := { grounding_metadata : option GroundingMetadata }.
Record GenerateContentResponse : Type :=
  { text : option string; candidates : option (list Candidate) }.

(** ** The outside world *)

(** What the program does to the outside: the remote calls, with the
    arguments the code passes, and the sleeps of the poll loop. *)
Inductive Effect : Type :=
| StoresCreate (display_name : string)
| FilesUpload (file display_name : string)
| StoresImportFile (file_search_store_name file_name : string)
| OperationsGet (operation : Operation)
| GenerateContent (model contents : string)
                  (file_search_store_names : list string)
| FilesDelete (name : string)
| StoresDelete (name : string)
| Sleep (seconds : nat).

(** The remote service answers a call from the history of effects before
    it: any deterministic service, failing or not, is such a function. *)
Definition Reply (A : Type) : Type := list Effect → exn + A.

Record Env : Type := {
  (* pathlib, on the argument of [Path(...)]; [exists] answers, or raises
     [OSError] for the errors it does not take for an absent path *)
  path_exists : string → exn + bool;
  path_name : string → string;
  path_str : string → string;
  (* the message of the [TypeError] of [sorted] on a set that mixes [None]
     and strings: it names the operands of the comparison that failed,
     which depends on the iteration order of the set *)
  sorted_error : gset (option string) → string;
  (* client.file_search_stores / files / operations / models *)
  file_search_stores_create : string → Reply FileSearchStore;
  files_upload : string → string → Reply File;
  file_search_stores_import_file : string → string → Reply Operation;
  operations_get : Operation → Reply Operation;
  models_generate_content :
    string → string → list string → Reply GenerateContentResponse;
  files_delete : string → Reply unit;
  file_search_stores_delete : string → Reply unit
}.

Record World : Type := {
  environ : gmap string string;
  effects : list Effect;
  stdout : list string
}.

(** ** The object *)

Record Client : Type := { client_api_key : string }.

Record GeminiRAG : Type := {
  api_key : string;
  client : Client;
  uploaded_files : list File;
  file_search_store : option FileSearchStore;
  model_name : string
}.

Record State : Type := { self : GeminiRAG; world : World }.

Definition with_uploaded_files (l : list File) (o : GeminiRAG) : GeminiRAG :=
  {| api_key := api_key o; client := client o; uploaded_files := l;
     file_search_store := file_search_store o; model_name := model_name o |}.

Definition with_file_search_store (st : option FileSearchStore)
    (o : GeminiRAG) : GeminiRAG :=
  {| api_key := api_key o; client := client o;
     uploaded_files := uploaded_files o;
     file_search_store := st; model_name := model_name o |}.

Definition with_effect (e : Effect) (w : World) : World :=
  {| environ := environ w; effects := effects w ++ [e]; stdout := stdout w |}.

Definition with_line (line : string) (w : World) : World :=
  {| environ := environ w; effects := effects w;
     stdout := stdout w ++ [line] |}.

Definition with_environ (k v : string) (w : World) : World :=
  {| environ := <[k:=v]> (environ w); effects := effects w;
     stdout := stdout w |}.

(** ** The monad of methods *)

Inductive Outcome (A : Type) : Type :=
| Ok (a : A)
| Raise (e : exn)
| OutOfFuel.
Arguments Ok {A} a.
Arguments Raise {A} e.
Arguments OutOfFuel {A}.

Definition M (A : Type) : Type := State → Outcome A * State.

Global Instance M_ret : MRet M := λ A a s, (Ok a, s).

Global Instance M_bind : MBind M := λ A B f c s,
  match c s with
  | (Ok a, s') => f a s'
  | (Raise e, s') => (Raise e, s')
  | (OutOfFuel, s') => (OutOfFuel, s')
  end.

Definition raise {A} (e : exn) : M A := λ s, (Raise e, s).

Definition out_of_fuel {A} : M A := λ s, (OutOfFuel, s).

(** [try: c except Exception as e: h e]. A run that never comes back is
    not an exception. *)
Definition try_except {A} (c : M A) (h : exn → M A) : M A := λ s,
  match c s with
  | (Raise e, s') => h e s'
  | r => r
  end.

Definition get_self : M GeminiRAG := λ s, (Ok (self s), s).

Definition set_uploaded_files (l : list File) : M unit := λ s,
  (Ok (), {| self := with_uploaded_files l (self s); world := world s |}).

Definition set_file_search_store (st : option FileSearchStore) : M unit :=
  λ s,
  (Ok (), {| self := with_file_search_store st (self s); world := world s |}).

Definition print (line : string) : M unit := λ s,
  (Ok (), {| self := self s; world := with_line line (world s) |}).

Definition sleep (seconds : nat) : M unit := λ s,
  (Ok (), {| self := self s; world := with_effect (Sleep seconds) (world s) |}).

(** A remote call: the service answers from the history, and the call is
    logged whether it succeeds or raises. *)
Definition remote {A} (call : Effect) (reply : Reply A) : M A := λ s,
  let s' := {| self := self s; world := with_effect call (world s) |} in
  match reply (effects (world s)) with
  | inl e => (Raise e, s')
  | inr a => (Ok a, s')
  end.

(** A local call that returns or raises, without an effect on the
    outside. *)
Definition local {A} (r : exn + A) : M A := λ s,
  match r with
  | inl e => (Raise e, s)
  | inr a => (Ok a, s)
  end.

(** [for x in l: body x] *)
Fixpoint for_each {A} (l : list A) (body : A → M unit) : M unit :=
  match l with
  | [] => mret ()
  | x :: l' => body x ;; for_each l' body
  end.

(** ** Python built-ins used by the class *)

Definition nl : string := String (Ascii.ascii_of_nat 10) EmptyString.

(** Truth value of an optional string: [None] and the empty string are
    false. *)
Definition truthy (o : option string) : bool :=
  match o with
  | Some (String _ _) => true
  | _ => false
  end.

(** [a or b] *)
Definition py_or (a b : option string) : option string :=
  if truthy a then a else b.

(** [str(x)] of an optional string, as an f-string formats it. *)
Definition py_str (o : option string) : string :=
  match o with
  | Some s => s
  | None => "None"
  end.

(** [s * n] *)
Fixpoint str_mul (s : string) (n : nat) : string :=
  match n with
  | 0 => EmptyString
  | S n' => s +:+ str_mul s n'
  end.

(** [enumerate(l, start)] *)
Fixpoint enumerate {A} (l : list A) (start : nat) : list (nat * A) :=
  match l with
  | [] => []
  | x :: l' => (start, x) :: enumerate l' (S start)
  end.

(** [sorted(s)] of a set of titles, each a string or [None]. Python
    compares strings by code point, which on UTF-8 bytes is the
    lexicographic order [String.le]; the iteration order of the set
    ([elements]) is not specified. Comparing [None] with a string raises
    [TypeError], and a sort of two or more elements compares each of them
    with another: the call raises as soon as [None] is not alone in the
    set. *)
Definition sorted (env : Env) (s : gset (option string))
    : exn + list (option string) :=
  if decide (None ∈ s) then
    if decide (s = {[ None ]}) then inr [None]
    else inl (TypeError (sorted_error env s))
  else
    inr (Some <$> merge_sort String.le (elements (set_omap id s : gset string))).

(** Whether a string holds a NUL byte, which [os.environ] refuses. *)
Fixpoint has_nul (s : string) : bool :=
  match s with
  | EmptyString => false
  | String c s' => Ascii.eqb c Ascii.zero || has_nul s'
  end.

(** ** The methods of [GeminiRAG] *)

(** [GeminiRAG.__init__(api_key)]: builds the object from the argument or
    the environment. The assignment to [os.environ] raises [ValueError]
    for a key that holds a NUL byte, before the environment is changed.
    Constructing [genai.Client] is local. *)
Definition __init__ (api_key : option string) (w : World)
    : Outcome GeminiRAG * World :=
  match py_or api_key (environ w !! "GEMINI_API_KEY") with
  | Some (String c k) =>
      let key := String c k in
      if has_nul key then (Raise (ValueError "embedded null byte"), w)
      else
        let w1 := with_environ "GOOGLE_API_KEY" key w in
        let obj := {| api_key := key;
                      client := {| client_api_key := key |};
                      uploaded_files := [];
                      file_search_store := None;
                      model_name := "gemini-2.5-pro" |} in
        (Ok obj,
         with_line ("Initialized with model: " +:+ model_name obj) w1)
  | _ =>
      (Raise (ValueError "GEMINI_API_KEY not found in environment variables"),
       w)
  end.

Section Methods.

Context (env : Env).

Definition create_store (store_name : string) : M FileSearchStore :=
  print ("Creating file search store: " +:+ store_name) ;;
  store ← remote (StoresCreate store_name)
                 (file_search_stores_create env store_name) ;
  set_file_search_store (Some store) ;;
  print ("File search store created: " +:+ fss_name store) ;;
  mret store.

(** The poll loop of [upload_file]:
    [while not operation.done: time.sleep(2); operation = operations.get(operation)].
    One unit of fuel pays for one sleep and one poll. *)
Fixpoint wait_import (fuel : nat) (operation : Operation) : M Operation :=
  if done operation then mret operation
  else
    match fuel with
    | 0 => out_of_fuel
    | S fuel' =>
        sleep 2 ;;
        operation' ← remote (OperationsGet operation)
                            (operations_get env operation) ;
        wait_import fuel' operation'
    end.

(** [upload_file(file_path)]; the [metadata] argument is not used by the
    method. *)
Definition upload_file (fuel : nat) (file_path : string) : M File :=
  obj ← get_self ;
  match file_search_store obj with
  | None =>
      raise (ValueError
               "No file search store created. Call create_store() first.")
  | Some store =>
      found ← local (path_exists env file_path) ;
      if negb found then
        raise (FileNotFoundError
                 ("File not found: " +:+ path_str env file_path))
      else
        print ("Uploading file: " +:+ path_name env file_path) ;;
        uploaded_file ←
          remote (FilesUpload (path_str env file_path)
                              (path_name env file_path))
                 (files_upload env (path_str env file_path)
                               (path_name env file_path)) ;
        print ("File uploaded: " +:+ f_name uploaded_file) ;;
        print "Importing file into search store..." ;;
        operation ←
          remote (StoresImportFile (fss_name store) (f_name uploaded_file))
                 (file_search_stores_import_file env (fss_name store)
                                                 (f_name uploaded_file)) ;
        wait_import fuel operation ;;
        print ("File imported successfully: " +:+ path_name env file_path) ;;
        obj' ← get_self ;
        set_uploaded_files (uploaded_files obj' ++ [uploaded_file]) ;;
        mret uploaded_file
  end.

(** The [for] loop of [upload_multiple_files], on the accumulator
    [results]. *)
Fixpoint upload_multiple_files_loop (fuel : nat) (file_paths : list string)
    (results : list (string * option File))
    : M (list (string * option File)) :=
  match file_paths with
  | [] => mret results
  | file_path :: rest =>
      results' ←
        try_except
          (result ← upload_file fuel file_path ;
           mret (results ++ [(file_path, Some result)]))
          (λ e,
           print ("Error uploading " +:+ file_path +:+ ": " +:+ exn_str e) ;;
           mret (results ++ [(file_path, None)])) ;
      upload_multiple_files_loop fuel rest results'
  end.

Definition upload_multiple_files (fuel : nat) (file_paths : list string)
    : M (list (string * option File)) :=
  upload_multiple_files_loop fuel file_paths [].

(** The set built from the grounding chunks in [query]:
    a chunk contributes its title, a string or [None], when it has a
    [retrieved_context] that has a [title]. *)
Definition add_source (sources : gset (option string))
    (chunk : GroundingChunk) : gset (option string) :=
  match retrieved_context chunk with
  | Some rc =>
      match title rc with
      | Some t => {[ t ]} ∪ sources
      | None => sources
      end
  | None => sources
  end.

Definition collect_sources (chunks : list GroundingChunk)
    : gset (option string) :=
  foldl add_source ∅ chunks.

(** The display of the sources in [query]: nothing for an empty set;
    otherwise the heading, then [sorted], which may raise, then one
    numbered line per source. *)
Definition show_sources (sources : gset (option string)) : M unit :=
  if decide (sources = ∅) then mret ()
  else
    print (nl +:+ "Sources:") ;;
    ordered ← local (sorted env sources) ;
    for_each (enumerate ordered 1)
             (λ '(i, source), print (pretty i +:+ ". " +:+ py_str source)).

(** [query(question)]; the [metadata_filter] argument is not used by the
    method. *)
Definition query (question : string) : M GenerateContentResponse :=
  obj ← get_self ;
  match file_search_store obj with
  | None =>
      raise (ValueError
               "No file search store created. Call create_store() first.")
  | Some store =>
      match uploaded_files obj with
      | [] => raise (ValueError "No files uploaded. Call upload_file() first.")
      | _ :: _ =>
          print (nl +:+ "Query: " +:+ question) ;;
          print (str_mul "-" 50) ;;
          response ←
            remote (GenerateContent (model_name obj) question
                                    [fss_name store])
                   (models_generate_content env (model_name obj) question
                                            [fss_name store]) ;
          print (nl +:+ "Answer:" +:+ nl +:+ py_str (text response) +:+ nl) ;;
          match candidates response with
          | Some (candidate :: _) =>
              match grounding_metadata candidate with
              | Some {| grounding_chunks := Some (chunk :: chunks) |} =>
                  show_sources (collect_sources (chunk :: chunks))
              | _ => print "No grounding sources found"
              end
          | _ => print "No candidate responses found"
          end ;;
          mret response
      end
  end.

(** [delete_files()] *)
Definition delete_files : M unit :=
  obj ← get_self ;
  print ("Deleting " +:+ pretty (length (uploaded_files obj))
         +:+ " uploaded files...") ;;
  for_each (uploaded_files obj) (λ file,
    try_except
      (remote (FilesDelete (f_name file)) (files_delete env (f_name file)) ;;
       print ("Deleted: " +:+ f_name file))
      (λ e,
       print ("Error deleting " +:+ f_name file +:+ ": " +:+ exn_str e))) ;;
  set_uploaded_files [] ;;
  print "All files deleted".

(** [delete_store()]; the [store_name] argument is not used by the
    method. *)
Definition delete_store : M unit :=
  obj ← get_self ;
  match file_search_store obj with
  | Some store =>
      try_except
        (remote (StoresDelete (fss_name store))
                (file_search_stores_delete env (fss_name store)) ;;
         print ("Deleted file search store: " +:+ fss_name store) ;;
         set_file_search_store None)
        (λ e, print ("Error deleting store: " +:+ exn_str e))
  | None => print "No file search store to delete"
  end.

End Methods.

(** ** Specification vocabulary *)

(** What the service reports for [operation] at the [k]-th poll after
    [history], when the client sleeps two seconds before each poll: the
    operation itself at [k = 0], an exception from the first poll that
    raises. The sequence does not look at [done]: it is the service's
    side of the poll loop. *)
Fixpoint polled (env : Env) (history : list Effect) (operation : Operation)
    (k : nat) : exn + Operation :=
  match k with
  | 0 => inr operation
  | S k' =>
      match operations_get env operation (history ++ [Sleep 2]) with
      | inl e => inl e
      | inr operation' =>
          polled env (history ++ [Sleep 2; OperationsGet operation])
                 operation' k'
      end
  end.

(** A log made of rounds of the poll loop only: a two-second sleep, then
    one poll. *)
Fixpoint poll_rounds (log : list Effect) : bool :=
  match log with
  | [] => true
  | Sleep 2 :: OperationsGet _ :: log' => poll_rounds log'
  | _ => false
  end.

(** A run of [upload_file] over [file_paths], one call after the other from
    state [s]: a call that returns pairs its path with the handle, a call
    that raises pairs it with [None], is reported on standard output and
    counts as one failure. *)
Inductive batch_run (env : Env) (fuel : nat)
    : State → list string → list (string * option File) → nat → State → Prop :=
| batch_nil s : batch_run env fuel s [] [] 0 s
| batch_uploaded s file_path handle s1 rest results failures s' :
    upload_file env fuel file_path s = (Ok handle, s1) →
    batch_run env fuel s1 rest results failures s' →
    batch_run env fuel s (file_path :: rest)
              ((file_path, Some handle) :: results) failures s'
| batch_failed s file_path e s1 rest results failures s' :
    upload_file env fuel file_path s = (Raise e, s1) →
    batch_run env fuel
              (print ("Error uploading " +:+ file_path +:+ ": " +:+ exn_str e)
                     s1).2
              rest results failures s' →
    batch_run env fuel s (file_path :: rest)
              ((file_path, None) :: results) (S failures) s'.

(** A batch that does not come back: some call of [upload_file], reached
    by a run over the paths before it, is still polling when the fuel is
    spent. *)
Definition batch_waits (env : Env) (fuel : nat) (s : State)
    (file_paths : list string) : Prop :=
  ∃ before file_path after results failures s1 s2,
    file_paths = before ++ file_path :: after ∧
    batch_run env fuel s before results failures s1 ∧
    upload_file env fuel file_path s1 = (OutOfFuel, s2).

(** ** Concrete services and sessions *)

Fixpoint polls (history : list Effect) : nat :=
  match history with
  | [] => 0
  | OperationsGet _ :: h => S (polls h)
  | _ :: h => polls h
  end.

Definition titled (t : string) : GroundingChunk :=
  {| retrieved_context := Some {| title := Some (Some t) |} |}.

Definition answer : GenerateContentResponse :=
  {| text := Some "See the notes.";
     candidates := Some [
       {| grounding_metadata := Some {| grounding_chunks := Some [
            titled "paper.pdf"; titled "notes.txt"; titled "paper.pdf";
            {| retrieved_context := None |} ] |} |} ] |}.

(** A service on a directory where every path but [missing.txt] exists
    and [locked/notes.txt] cannot be examined, given its replies to polls
    and to deletions. *)
Definition service (poll : Operation → Reply Operation)
    (delete : string → Reply unit) : Env :=
  {| path_exists := λ p,
       if bool_decide (p = "locked/notes.txt") then
         inl (OSError "[Errno 13] Permission denied: 'locked/notes.txt'")
       else inr (bool_decide (p ≠ "missing.txt"));
     path_name := λ p, p;
     path_str := λ p, p;
     sorted_error := λ _,
       "'<' not supported between instances of 'NoneType' and 'str'";
     file_search_stores_create := λ name _,
       inr {| fss_name := "fileSearchStores/" +:+ name |};
     files_upload := λ _ display_name _,
       inr {| f_name := "files/" +:+ display_name |};
     file_search_stores_import_file := λ _ file _,
       inr {| op_name := "operations/" +:+ file; done := false |};
     operations_get := poll;
     models_generate_content := λ _ _ _ _, inr answer;
     files_delete := delete;
     file_search_stores_delete := delete |}.

(** Imports complete at the second poll of the session. *)
Definition service_ready : Env :=
  service (λ op history,
             inr {| op_name := op_name op;
                    done := bool_decide (1 ≤ polls history) |})
          (λ _ _, inr ()).

(** Imports never complete. *)
Definition service_stuck : Env :=
  service (λ op _, inr {| op_name := op_name op; done := false |})
          (λ _ _, inr ()).

(** Polls and deletions are refused. *)
Definition service_failing : Env :=
  service (λ _ _, inl (RemoteError "503 Service Unavailable"))
          (λ _ _, inl (RemoteError "503 Service Unavailable")).

Definition world0 : World :=
  {| environ := ∅; effects := []; stdout := [] |}.

Definition session (files : list File) (store : option FileSearchStore)
    : State :=
  {| self := {| api_key := "key"; client := {| client_api_key := "key" |};
                uploaded_files := files; file_search_store := store;
                model_name := "gemini-2.5-pro" |};
     world := world0 |}.

Definition kb : FileSearchStore := {| fss_name := "fileSearchStores/kb" |}.

Definition pending : Operation :=
  {| op_name := "operations/files/notes.txt"; done := false |}.

(** ** The command-line entry point *)

(** What [main] asks of its host besides [Env]: whether a path is a
    directory, the paths [str(f)] of the files of a directory that match a
    pattern, and the two [str] methods applied to a question. *)
Record Host : Type := {
  is_dir : string → bool;
  glob : string → string → list string;
  strip : string → string;
  lower : string → string
}.

(** What one call of [input] gives: a line, without its newline;
    [KeyboardInterrupt]; or [EOFError] for an end of file typed at a
    terminal, after which reading goes on. Once the list is exhausted
    standard input is at its end for good (a pipe or a file read to the
    end), and every further call raises [EOFError]. The prompt is not
    recorded: [stdout] holds the calls of [print]. An interrupt that
    arrives while [query] runs is outside the model. *)
Inductive Input : Type :=
| Line (text : string)
| Interrupt
| EndOfFile.

Definition quit_words : list string := ["quit"; "exit"; "q"].

Section Main.

Context (env : Env) (host : Host).

(** The loop of [main] at the end of standard input: [input] raises
    [EOFError], an [Exception], which the last handler prints before the
    next iteration. One unit of fuel pays for one iteration. *)
Fixpoint eof_loop (fuel : nat) : M unit :=
  match fuel with
  | 0 => out_of_fuel
  | S fuel' => print "Error: EOF when reading a line" ;; eof_loop fuel'
  end.

(** The [while True] loop of [main]. *)
Fixpoint interactive_loop (fuel : nat) (stdin : list Input) : M unit :=
  match stdin with
  | [] => eof_loop fuel
  | Interrupt :: _ => mret ()
  | EndOfFile :: rest =>
      print "Error: EOF when reading a line" ;;
      interactive_loop fuel rest
  | Line text :: rest =>
      let question := strip host text in
      if bool_decide (lower host question ∈ quit_words) then mret ()
      else
        try_except
          match question with
          | EmptyString => mret ()
          | String _ _ => query env question ;; mret ()
          end
          (λ e, print ("Error: " +:+ exn_str e)) ;;
        interactive_loop fuel rest
  end.

(** [main] once the object is built. *)
Definition main_session (fuel : nat) (stdin : list Input) : M unit :=
  create_store env "my-knowledge-base" ;;
  found ← local (path_exists env "documents") ;
  if found && is_dir host "documents" then
    print (nl +:+ "Found documents directory. Uploading files...") ;;
    match glob host "documents" "*.txt" ++ glob host "documents" "*.pdf"
          ++ glob host "documents" "*.md" with
    | [] => print "No supported files found in documents directory"
    | file :: files =>
        upload_multiple_files env fuel (file :: files) ;; mret ()
    end ;;
    print (nl +:+ str_mul "=" 50) ;;
    print "RAG System Ready!" ;;
    print (str_mul "=" 50) ;;
    print ("Type your questions (or 'quit' to exit):" +:+ nl) ;;
    interactive_loop fuel stdin ;;
    print (nl +:+ "Goodbye!")
  else
    print (nl +:+ "No 'documents' directory found.") ;;
    print "Please create a 'documents' directory and add your files there." ;;
    print "Supported formats: .txt, .pdf, .md, and many more".

(** [main()]: an exception of the constructor or of [create_store] leaves
    the function. *)
Definition main (fuel : nat) (stdin : list Input) (w : World)
    : Outcome unit * World :=
  match __init__ None w with
  | (Ok rag, w1) =>
      let r := main_session fuel stdin {| self := rag; world := w1 |} in
      (r.1, world r.2)
  | (Raise e, w1) => (Raise e, w1)
  | (OutOfFuel, w1) => (OutOfFuel, w1)
  end.

End Main.

(** ** More specification vocabulary *)

(** An input that ends the loop of [main]: an interrupt, or a line that is
    a quit word once stripped and lowered. *)
Definition ends_session (host : Host) (i : Input) : bool :=
  match i with
  | Interrupt => true
  | EndOfFile => false
  | Line text => bool_decide (lower host (strip host text) ∈ quit_words)
  end.

(** The questions that the loop of [main] forwards to [query]: the lines
    read before the input that ends the loop, stripped, the empty ones
    left out. *)
Fixpoint questions (host : Host) (stdin : list Input) : list string :=
  match stdin with
  | [] => []
  | i :: rest =>
      if ends_session host i then []
      else
        match i with
        | Line text =>
            match strip host text with
            | EmptyString => questions host rest
            | String c q => String c q :: questions host rest
            end
        | Interrupt => []
        | EndOfFile => questions host rest
        end
  end.

(** The call that [query] sends for a question on an object: one
    generation when the object has a store and a file, nothing
    otherwise. *)
Definition generation_of (o : GeminiRAG) (question : string) : list Effect :=
  match file_search_store o, uploaded_files o with
  | Some store, _ :: _ =>
      [GenerateContent (model_name o) question [fss_name store]]
  | _, _ => []
  end.

Definition is_delete (e : Effect) : bool :=
  match e with
  | FilesDelete _ | StoresDelete _ => true
  | _ => false
  end.

Definition is_generate (e : Effect) : bool :=
  match e with
  | GenerateContent _ _ _ => true
  | _ => false
  end.

(** The effects of ingestion: an upload, an import, a poll, a sleep. *)
Definition is_ingest (e : Effect) : bool :=
  match e with
  | FilesUpload _ _ | StoresImportFile _ _ | OperationsGet _ | Sleep _ => true
  | _ => false
  end.

(** The object with one more uploaded file. *)
Definition tracking (handle : File) (o : GeminiRAG) : GeminiRAG :=
  with_uploaded_files (uploaded_files o ++ [handle]) o.

(** [s'] is reached from [s] by effects that all satisfy [P]. *)
Definition grows (P : Effect → bool) (s s' : State) : Prop :=
  ∃ log, effects (world s') = effects (world s) ++ log ∧
         forallb P log = true.

(** ** More concrete hosts and worlds *)

Definition ascii_lower (c : Ascii.ascii) : Ascii.ascii :=
  let n := Ascii.nat_of_ascii c in
  if (65 <=? n) && (n <=? 90) then Ascii.ascii_of_nat (n + 32) else c.

Fixpoint lower_ascii (s : string) : string :=
  match s with
  | EmptyString => EmptyString
  | String c s' => String (ascii_lower c) (lower_ascii s')
  end.

Fixpoint lstrip_ascii (s : string) : string :=
  match s with
  | EmptyString => EmptyString
  | String c s' => if Ascii.is_space c then lstrip_ascii s' else s
  end.

Definition strip_ascii (s : string) : string :=
  String.rev (lstrip_ascii (String.rev (lstrip_ascii s))).

(** A host for ASCII questions, with or without a documents directory
    holding one text file and one PDF. *)
Definition host_ascii (documents : bool) : Host :=
  {| is_dir := λ p, documents && bool_decide (p = "documents");
     glob := λ _ pattern,
       if bool_decide (pattern = "*.txt") then ["documents/notes.txt"]
       else if bool_decide (pattern = "*.pdf") then ["documents/paper.pdf"]
       else [];
     strip := strip_ascii;
     lower := lower_ascii |}.

(** A host whose documents directory holds no supported file. *)
Definition host_empty : Host :=
  {| is_dir := λ p, bool_decide (p = "documents");
     glob := λ _ _, [];
     strip := strip_ascii;
     lower := lower_ascii |}.

Definition world_with_key : World :=
  {| environ := {[ "GEMINI_API_KEY" := "secret" ]}; effects := [];
     stdout := [] |}.

Definition done_at_once : Operation :=
  {| op_name := "operations/files/notes.txt"; done := true |}.

(** Imports are done when they are created. *)
Definition service_instant : Env :=
  {| path_exists := path_exists service_ready;
     path_name := path_name service_ready;
     path_str := path_str service_ready;
     sorted_error := sorted_error service_ready;
     file_search_stores_create := file_search_stores_create service_ready;
     files_upload := files_upload service_ready;
     file_search_stores_import_file := λ _ file _,
       inr {| op_name := "operations/" +:+ file; done := true |};
     operations_get := operations_get service_ready;
     models_generate_content := models_generate_content service_ready;
     files_delete := files_delete service_ready;
     file_search_stores_delete := file_search_stores_delete service_ready |}.

(** Uploads succeed and imports are refused. *)
Definition service_import_refused : Env :=
  {| path_exists := path_exists service_ready;
     path_name := path_name service_ready;
     path_str := path_str service_ready;
     sorted_error := sorted_error service_ready;
     file_search_stores_create := file_search_stores_create service_ready;
     files_upload := files_upload service_ready;
     file_search_stores_import_file := λ _ _ _,
       inl (RemoteError "400 Unsupported file type");
     operations_get := operations_get service_ready;
     models_generate_content := models_generate_content service_ready;
     files_delete := files_delete service_ready;
     file_search_stores_delete := file_search_stores_delete service_ready |}.

(** Uploads are refused. *)
Definition service_upload_refused : Env :=
  {| path_exists := path_exists service_ready;
     path_name := path_name service_ready;
     path_str := path_str service_ready;
     sorted_error := sorted_error service_ready;
     file_search_stores_create := file_search_stores_create service_ready;
     files_upload := λ _ _ _, inl (RemoteError "413 Payload Too Large");
     file_search_stores_import_file :=
       file_search_stores_import_file service_ready;
     operations_get := operations_get service_ready;
     models_generate_content := models_generate_content service_ready;
     files_delete := files_delete service_ready;
     file_search_stores_delete := file_search_stores_delete service_ready |}.

(** Generation answers without candidates, or with a candidate that
    carries no grounding metadata, or with chunks that carry no title. *)
Definition service_answering (response : GenerateContentResponse) : Env :=
  {| path_exists := path_exists service_ready;
     path_name := path_name service_ready;
     path_str := path_str service_ready;
     sorted_error := sorted_error service_ready;
     file_search_stores_create := file_search_stores_create service_ready;
     files_upload := files_upload service_ready;
     file_search_stores_import_file :=
       file_search_stores_import_file service_ready;
     operations_get := operations_get service_ready;
     models_generate_content := λ _ _ _ _, inr response;
     files_delete := files_delete service_ready;
     file_search_stores_delete := file_search_stores_delete service_ready |}.

Definition notes : File := {| f_name := "files/notes.txt" |}.

Definition answer_without_candidates : GenerateContentResponse :=
  {| text := None; candidates := Some [] |}.

Definition answer_without_grounding : GenerateContentResponse :=
  {| text := Some "Yes.";
     candidates := Some [{| grounding_metadata := None |}] |}.

(** One context whose title is [None], alone or beside a titled chunk. *)
Definition untitled : GroundingChunk :=
  {| retrieved_context := Some {| title := Some None |} |}.

Definition answer_with_null_title : GenerateContentResponse :=
  {| text := Some "Yes.";
     candidates := Some [
       {| grounding_metadata :=
            Some {| grounding_chunks := Some [untitled] |} |} ] |}.

Definition answer_with_mixed_titles : GenerateContentResponse :=
  {| text := Some "Yes.";
     candidates := Some [
       {| grounding_metadata :=
            Some {| grounding_chunks :=
                      Some [titled "notes.txt"; untitled] |} |} ] |}.

(** A key that holds a NUL byte. *)
Definition key_with_nul : string :=
  String (Ascii.ascii_of_nat 107) (String Ascii.zero "y").

Definition answer_without_titles : GenerateContentResponse :=
  {| text := Some "Yes.";
     candidates := Some [
       {| grounding_metadata := Some {| grounding_chunks := Some [
            {| retrieved_context := None |};
            {| retrieved_context := Some {| title := None |} |} ] |} |} ] |}.

(** * Properties *)

(** ** Running the monad *)

Lemma bind_run {A B} (c : M A) (f : A → M B) (s : State) :
  (c ≫= f) s =
  match c s with
  | (Ok a, s') => f a s'
  | (Raise e, s') => (Raise e, s')
  | (OutOfFuel, s') => (OutOfFuel, s')
  end.
Proof. reflexivity. Qed.

Lemma print_run (line : string) (s : State) :
  print line s = (Ok (), {| self := self s; world := with_line line (world s) |}).
Proof. reflexivity. Qed.

(** Unfolds the binds of a method body applied to a state. *)
Ltac run :=
  repeat (rewrite ?bind_run;
          cbn [get_self raise out_of_fuel local mret M_ret print sleep
               set_uploaded_files set_file_search_store self world
               fst snd]).

(** ** Preconditions of [query] *)

(** C1. On a session without a store, [query] raises the precondition
    error [ValueError] and leaves the state as it was: the effect log is
    the same, so no remote call (in particular no generation call) was
    made. *)
Theorem query_without_store (env : Env) (question : string) (s : State) :
  file_search_store (self s) = None →
  query env question s =
    (Raise (ValueError
              "No file search store created. Call create_store() first."), s).
Proof.
  intros Hstore. unfold query. run. by rewrite Hstore.
Qed.

Lemma query_without_store_witness :
  query service_ready "why?" (session [] None) =
    (Raise (ValueError
              "No file search store created. Call create_store() first."),
     session [] None).
Proof. apply (query_without_store service_ready). reflexivity. Defined.

(** C2. On a session with a store whose list of uploaded files is empty,
    [query] raises the precondition error [ValueError] and leaves the state
    as it was: no remote call was made. *)
Theorem query_without_files (env : Env) (question : string) (s : State)
    (store : FileSearchStore) :
  file_search_store (self s) = Some store →
  uploaded_files (self s) = [] →
  query env question s =
    (Raise (ValueError "No files uploaded. Call upload_file() first."), s).
Proof.
  intros Hstore Hfiles. unfold query. run. by rewrite Hstore, Hfiles.
Qed.

Lemma query_without_files_witness :
  query service_ready "why?" (session [] (Some kb)) =
    (Raise (ValueError "No files uploaded. Call upload_file() first."),
     session [] (Some kb)).
Proof.
  apply (query_without_files service_ready "why?" (session [] (Some kb)) kb);
    reflexivity.
Defined.

(** ** Preconditions of [upload_file] *)

(** C3, as stated, fails on a session without a store: the store is
    checked first, so a path that does not exist is met with [ValueError],
    not [FileNotFoundError]. *)
Lemma upload_file_missing_path_no_store :
  path_exists service_ready "missing.txt" = inr false ∧
  ¬ ∃ msg s',
      upload_file service_ready 0 "missing.txt" (session [] None) =
        (Raise (FileNotFoundError msg), s').
Proof.
  split; [reflexivity|]. intros (msg & s' & H). vm_compute in H. discriminate H.
Qed.

(** C3, amended. For a path that [exists] does not report as existing,
    [upload_file] raises and leaves the state as it was, so no remote call
    (neither upload nor import) was made. On a session without a store the
    error is the precondition error [ValueError]; on a session with a
    store it is [FileNotFoundError] when [exists] answers [False], and the
    [OSError] of [exists] itself when the path cannot be examined. *)
Theorem upload_file_missing_path (env : Env) (fuel : nat) (file_path : string)
    (s : State) :
  path_exists env file_path ≠ inr true →
  upload_file env fuel file_path s =
    (Raise
       match file_search_store (self s) with
       | None =>
           ValueError
             "No file search store created. Call create_store() first."
       | Some _ =>
           match path_exists env file_path with
           | inl e => e
           | inr _ =>
               FileNotFoundError
                 ("File not found: " +:+ path_str env file_path)
           end
       end, s).
Proof.
  intros Hpath. unfold upload_file. run.
  destruct (file_search_store (self s)); [|done].
  by destruct (path_exists env file_path) as [e|[]].
Qed.

Lemma upload_file_missing_path_witness :
  upload_file service_ready 3 "missing.txt" (session [] (Some kb)) =
    (Raise (FileNotFoundError "File not found: missing.txt"),
     session [] (Some kb)).
Proof.
  apply (upload_file_missing_path service_ready 3 "missing.txt"
           (session [] (Some kb))).
  discriminate.
Defined.

(** ** Construction *)

(** C9. With no explicit key and [GEMINI_API_KEY] absent from the
    environment or empty, the constructor raises [ValueError] and the
    world is as it was: nothing was printed, set or sent. *)
Theorem init_without_credential (w : World) :
  environ w !! "GEMINI_API_KEY" = None ∨
  environ w !! "GEMINI_API_KEY" = Some EmptyString →
  __init__ None w =
    (Raise (ValueError "GEMINI_API_KEY not found in environment variables"),
     w).
Proof.
  intros Henv. unfold __init__, py_or. cbn [truthy].
  by destruct Henv as [-> | ->].
Qed.

Lemma init_without_credential_witness :
  __init__ None world0 =
    (Raise (ValueError "GEMINI_API_KEY not found in environment variables"),
     world0).
Proof. apply init_without_credential. left. reflexivity. Defined.

(** ** Cleanup *)

(** The loop of [delete_files] comes back whatever the service replies,
    does not touch the object, and has sent one deletion per file, in
    order. *)
Lemma delete_loop_run (env : Env) (files : list File) (s : State) :
  ∃ s',
    for_each files (λ file,
      try_except
        (remote (FilesDelete (f_name file)) (files_delete env (f_name file)) ;;
         print ("Deleted: " +:+ f_name file))
        (λ e,
         print ("Error deleting " +:+ f_name file +:+ ": " +:+ exn_str e))) s
    = (Ok (), s') ∧
    self s' = self s ∧
    effects (world s') =
      effects (world s) ++ map (λ file, FilesDelete (f_name file)) files.
Proof.
  revert s. induction files as [|file files IH]; intros s.
  - exists s. cbn. by rewrite app_nil_r.
  - cbn [for_each]. rewrite bind_run. unfold try_except at 1.
    rewrite bind_run. unfold remote at 1.
    destruct (files_delete env (f_name file) (effects (world s))) as [e|[]];
      rewrite print_run;
      match goal with |- context [for_each _ _ ?s1] =>
        destruct (IH s1) as (s' & -> & Hself & Heff) end;
      exists s'; (split; [done|]); cbn in Hself, Heff;
      (split; [done|]); rewrite Heff; cbn; by rewrite <- app_assoc.
Qed.

(** C6. Whatever the service replies to each deletion, [delete_files]
    returns, the list of uploaded files is then empty, and the effect log
    has grown by exactly one deletion per entry of the former list, in
    order. *)
Theorem delete_files_clears (env : Env) (s : State) :
  ∃ s',
    delete_files env s = (Ok (), s') ∧
    uploaded_files (self s') = [] ∧
    effects (world s') =
      effects (world s) ++
      map (λ file, FilesDelete (f_name file)) (uploaded_files (self s)).
Proof.
  unfold delete_files. run.
  match goal with |- context [for_each _ _ ?s1] =>
    destruct (delete_loop_run env (uploaded_files (self s)) s1)
      as (s2 & -> & Hself & Heff) end.
  run. eexists. split; [reflexivity|]. cbn. split; [done|].
  by rewrite Heff.
Qed.

(** C8, as stated, fails when the remote deletion raises: the method
    returns and the store is still referenced. *)
Lemma delete_store_failing_keeps_reference :
  ∃ s',
    delete_store service_failing (session [] (Some kb)) = (Ok (), s') ∧
    file_search_store (self s') ≠ None.
Proof. eexists. split; [vm_compute; reflexivity|]. cbn. discriminate. Qed.

(** The same run, on standard output: the error of the service is what
    is printed. *)
Example delete_store_failing_prints_error :
  stdout (world (delete_store service_failing (session [] (Some kb))).2) =
  ["Error deleting store: 503 Service Unavailable"].
Proof. vm_compute. reflexivity. Qed.

(** C8, amended. On a session with a store, [delete_store] sends one
    deletion of that store and returns; when the call succeeds the
    reference is cleared and the deletion is reported on standard output;
    when it raises the reference is kept and the error is printed. The
    list of uploaded files is the same either way. *)
Theorem delete_store_outcome (env : Env) (s : State)
    (store : FileSearchStore) :
  file_search_store (self s) = Some store →
  ∃ s',
    delete_store env s = (Ok (), s') ∧
    effects (world s') = effects (world s) ++ [StoresDelete (fss_name store)] ∧
    file_search_store (self s') =
      match file_search_stores_delete env (fss_name store)
              (effects (world s)) with
      | inr _ => None
      | inl _ => Some store
      end ∧
    uploaded_files (self s') = uploaded_files (self s) ∧
    stdout (world s') =
      stdout (world s) ++
      [match file_search_stores_delete env (fss_name store)
               (effects (world s)) with
       | inr _ => "Deleted file search store: " +:+ fss_name store
       | inl e => "Error deleting store: " +:+ exn_str e
       end].
Proof.
  intros Hstore. unfold delete_store. run. rewrite Hstore.
  unfold try_except. rewrite bind_run. unfold remote.
  destruct (file_search_stores_delete env (fss_name store)
              (effects (world s))) as [e|[]]; run;
    eexists; (split; [reflexivity|]); cbn; done.
Qed.

Lemma delete_store_outcome_witness :
  ∃ s',
    delete_store service_ready (session [] (Some kb)) = (Ok (), s') ∧
    effects (world s') = [StoresDelete "fileSearchStores/kb"] ∧
    file_search_store (self s') = None ∧
    uploaded_files (self s') = [] ∧
    stdout (world s') = ["Deleted file search store: fileSearchStores/kb"].
Proof.
  apply (delete_store_outcome service_ready (session [] (Some kb)) kb).
  reflexivity.
Defined.

(** ** The import poll *)

Lemma polled_raise_mono (env : Env) (k n : nat) (history : list Effect)
    (operation : Operation) (e : exn) :
  polled env history operation n = inl e → n ≤ k →
  polled env history operation k = inl e.
Proof.
  revert k history operation.
  induction n as [|n IH]; intros k history operation Hn Hle; [done|].
  destruct k as [|k]; [lia|]. cbn [polled] in *.
  destruct (operations_get env operation (history ++ [Sleep 2]));
    [done|]. apply IH; [done|lia].
Qed.

(** What a run of the loop with [fuel] has done when it stops: [n] rounds,
    each a sleep and a poll, the first [n] reports all pending, and the
    outcome is the report at [n]. *)
Lemma wait_import_run (env : Env) (fuel : nat) (operation : Operation)
    (s : State) :
  ∃ n log out s',
    wait_import env fuel operation s = (out, s') ∧
    n ≤ fuel ∧ length log = 2 * n ∧ poll_rounds log = true ∧
    self s' = self s ∧ stdout (world s') = stdout (world s) ∧
    effects (world s') = effects (world s) ++ log ∧
    (∀ j, j < n → ∃ operation',
       polled env (effects (world s)) operation j = inr operation' ∧
       done operation' = false) ∧
    match out with
    | Ok operation' =>
        polled env (effects (world s)) operation n = inr operation' ∧
        done operation' = true
    | Raise e =>
        0 < n ∧ polled env (effects (world s)) operation n = inl e
    | OutOfFuel =>
        n = fuel ∧ ∃ operation',
          polled env (effects (world s)) operation n = inr operation' ∧
          done operation' = false
    end.
Proof.
  revert operation s. induction fuel as [|fuel IH]; intros operation s.
  - cbn [wait_import]. destruct (done operation) eqn:Hdone.
    + exists 0, [], (Ok operation), s. rewrite app_nil_r.
      repeat split; try done. intros; lia.
    + exists 0, [], OutOfFuel, s. rewrite app_nil_r.
      repeat split; try done; [intros; lia|]. by exists operation.
  - cbn [wait_import]. destruct (done operation) eqn:Hdone.
    + exists 0, [], (Ok operation), s. rewrite app_nil_r.
      repeat split; try done; [lia|intros; lia].
    + run. unfold remote at 1. cbn [world effects with_effect self].
      destruct (operations_get env operation (effects (world s) ++ [Sleep 2]))
        as [e|operation1] eqn:Hget.
      * eexists 1, [Sleep 2; OperationsGet operation], (Raise e), _.
        split; [reflexivity|]. cbn [self world effects stdout with_effect].
        rewrite <- app_assoc. repeat split; try done; try lia.
        -- intros j Hj. assert (j = 0) as -> by lia. by exists operation.
        -- cbn [polled]. by rewrite Hget.
      * match goal with |- context [wait_import env fuel operation1 ?s1] =>
          destruct (IH operation1 s1)
            as (n & log & out & s' & Hrun & Hle & Hlen & Hrounds & Hself
                & Hout & Heff & Hpending & Hend) end.
        cbn [self world effects stdout with_effect] in *.
        rewrite <- !app_assoc in Heff, Hpending, Hend. cbn [app] in *.
        exists (S n), (Sleep 2 :: OperationsGet operation :: log), out, s'.
        split; [done|]. split; [lia|]. split; [cbn; lia|].
        split; [done|]. split; [done|]. split; [done|].
        split; [by rewrite Heff, <- app_assoc|]. split.
        -- intros [|j] Hj; [by exists operation|].
           cbn [polled]. rewrite Hget. apply Hpending. lia.
        -- cbn [polled]. rewrite Hget.
           destruct out; [done| |].
           ++ split; [lia|]. by destruct Hend.
           ++ destruct Hend as [-> Hend]. done.
Qed.

(** C7, as stated, fails when a poll raises: the loop ends, on the
    exception, although the operation never reports done. *)
Lemma wait_import_ends_on_failing_poll :
  (∃ fuel e s',
     wait_import service_failing fuel pending (session [] (Some kb)) =
       (Raise e, s')) ∧
  ¬ ∃ k operation',
      polled service_failing (effects (world (session [] (Some kb))))
             pending k = inr operation' ∧
      done operation' = true.
Proof.
  split.
  - exists 1. eexists _, _. vm_compute. reflexivity.
  - intros ([|k] & operation' & Hpolled & Hdone); cbn in Hpolled.
    + injection Hpolled as <-. discriminate Hdone.
    + discriminate Hpolled.
Qed.

(** C7, amended. Every round of the loop is a two-second sleep followed by
    one poll, and nothing but the fuel of the model bounds the number of
    rounds. The loop ends normally exactly when the operation reports done
    at some poll that is reached (no earlier poll raised), ends on an
    exception exactly when a poll raises before any report of done, and for
    an operation that every poll reports pending the loop is still waiting
    after any number of rounds. *)
Theorem wait_import_spec (env : Env) (operation : Operation) (s : State) :
  (∀ fuel out s',
     wait_import env fuel operation s = (out, s') →
     ∃ log, effects (world s') = effects (world s) ++ log ∧
            poll_rounds log = true ∧ length log ≤ 2 * fuel) ∧
  ((∃ fuel operation' s',
      wait_import env fuel operation s = (Ok operation', s')) ↔
   (∃ k operation',
      polled env (effects (world s)) operation k = inr operation' ∧
      done operation' = true)) ∧
  ((∃ fuel e s', wait_import env fuel operation s = (Raise e, s')) ↔
   (∃ k e,
      polled env (effects (world s)) operation (S k) = inl e ∧
      ∀ j operation', j ≤ k →
        polled env (effects (world s)) operation j = inr operation' →
        done operation' = false)) ∧
  ((∀ k, ∃ operation',
      polled env (effects (world s)) operation k = inr operation' ∧
      done operation' = false) →
   ∀ fuel, ∃ s',
     wait_import env fuel operation s = (OutOfFuel, s') ∧
     length (effects (world s')) = length (effects (world s)) + 2 * fuel).
Proof.
  split; [|split; [|split]].
  - intros fuel out s' Hrun.
    destruct (wait_import_run env fuel operation s)
      as (n & log & out' & s'' & Hrun' & Hle & Hlen & Hrounds & _ & _ & Heff
          & _).
    rewrite Hrun in Hrun'. injection Hrun' as <- <-.
    exists log. split; [done|]. split; [done|lia].
  - split.
    + intros (fuel & operation' & s' & Hrun).
      destruct (wait_import_run env fuel operation s)
        as (n & log & out' & s'' & Hrun' & _ & _ & _ & _ & _ & _ & _ & Hend).
      rewrite Hrun in Hrun'. injection Hrun' as <- <-.
      by exists n, operation'.
    + intros (k & operation' & Hpolled & Hdone).
      destruct (wait_import_run env k operation s)
        as (n & log & out & s' & Hrun & Hle & _ & _ & _ & _ & _ & _ & Hend).
      destruct out as [operation''|e|].
      * by exists k, operation'', s'.
      * destruct Hend as [_ Hraise].
        rewrite (polled_raise_mono env k n _ _ e Hraise Hle) in Hpolled.
        discriminate Hpolled.
      * destruct Hend as [-> (operation'' & Hpolled' & Hpending)].
        rewrite Hpolled in Hpolled'. injection Hpolled' as <-.
        rewrite Hdone in Hpending. discriminate Hpending.
  - split.
    + intros (fuel & e & s' & Hrun).
      destruct (wait_import_run env fuel operation s)
        as (n & log & out' & s'' & Hrun' & _ & _ & _ & _ & _ & _ & Hpending
            & Hend).
      rewrite Hrun in Hrun'. injection Hrun' as <- <-.
      destruct Hend as [Hpos Hraise]. destruct n as [|n]; [lia|].
      exists n, e. split; [done|]. intros j operation' Hj Hpolled.
      destruct (Hpending j) as (operation'' & Hpolled' & Hpend); [lia|].
      rewrite Hpolled in Hpolled'. by injection Hpolled' as <-.
    + intros (k & e & Hraise & Hpending).
      destruct (wait_import_run env (S k) operation s)
        as (n & log & out & s' & Hrun & Hle & _ & _ & _ & _ & _ & _ & Hend).
      destruct out as [operation'|e'|].
      * destruct Hend as [Hpolled Hdone].
        destruct (decide (n = S k)) as [->|Hne].
        -- rewrite Hraise in Hpolled. discriminate Hpolled.
        -- rewrite (Hpending n operation') in Hdone; [done|lia|done].
      * by exists (S k), e', s'.
      * destruct Hend as [-> (operation' & Hpolled & _)].
        rewrite Hraise in Hpolled. discriminate Hpolled.
  - intros Hpending fuel.
    destruct (wait_import_run env fuel operation s)
      as (n & log & out & s' & Hrun & _ & Hlen & _ & _ & _ & Heff & _ & Hend).
    destruct (Hpending n) as (operation' & Hpolled & Hpend).
    destruct out as [operation''|e|].
    + destruct Hend as [Hpolled' Hdone].
      rewrite Hpolled in Hpolled'. injection Hpolled' as <-.
      rewrite Hdone in Hpend. discriminate Hpend.
    + destruct Hend as [_ Hraise]. rewrite Hpolled in Hraise.
      discriminate Hraise.
    + destruct Hend as [-> _]. exists s'. split; [done|].
      rewrite Heff, length_app. lia.
Qed.

(** The theorem at the service that completes imports at the second
    poll: the loop ends normally. *)
Lemma wait_import_spec_witness :
  ∃ fuel operation' s',
    wait_import service_ready fuel pending (session [] (Some kb)) =
      (Ok operation', s').
Proof.
  apply (wait_import_spec service_ready pending (session [] (Some kb))).
  exists 2. eexists. vm_compute. split; reflexivity.
Defined.

(** ** Bookkeeping of [upload_file] *)

(** C10. Whenever [upload_file] raises (no store, no such path, a remote
    upload, import or poll error), and also while it is still polling, the
    list of uploaded files is the one before the call. When it returns a
    handle, the list has grown by that handle alone, at the end, and the
    import of that handle into the store was started and reported done at
    some poll of the run. *)
Theorem upload_file_atomic (env : Env) (fuel : nat) (file_path : string)
    (s : State) :
  match upload_file env fuel file_path s with
  | (Ok handle, s') =>
      uploaded_files (self s') = uploaded_files (self s) ++ [handle] ∧
      ∃ store operation k operation',
        file_search_store (self s) = Some store ∧
        file_search_stores_import_file env (fss_name store) (f_name handle)
          (effects (world s) ++
           [FilesUpload (path_str env file_path) (path_name env file_path)])
        = inr operation ∧
        polled env
          (effects (world s) ++
           [FilesUpload (path_str env file_path) (path_name env file_path);
            StoresImportFile (fss_name store) (f_name handle)])
          operation k = inr operation' ∧
        done operation' = true
  | (Raise _, s') | (OutOfFuel, s') =>
      uploaded_files (self s') = uploaded_files (self s)
  end.
Proof.
  unfold upload_file. run.
  destruct (file_search_store (self s)) as [store|] eqn:Hstore; [|done].
  destruct (path_exists env file_path) as [e|[]]; cbn [negb]; run;
    cbn [negb]; [done| |done].
  run. unfold remote at 1. cbn [self world effects with_line with_effect].
  destruct (files_upload env (path_str env file_path)
              (path_name env file_path) (effects (world s)))
    as [e|uploaded_file]; [done|].
  run. unfold remote at 1. cbn [self world effects with_line with_effect].
  destruct (file_search_stores_import_file env (fss_name store)
              (f_name uploaded_file) _) as [e|operation] eqn:Himport; [done|].
  rewrite bind_run.
  match goal with |- context [wait_import env fuel operation ?s1] =>
    destruct (wait_import_run env fuel operation s1)
      as (n & log & out & s' & -> & _ & _ & _ & Hself & _ & _ & _ & Hend) end.
  cbn [self world effects with_line with_effect] in Hself, Hend.
  rewrite <- app_assoc in Hend. cbn [app] in Hend.
  destruct out as [operation'|e|]; run;
    cbn [uploaded_files with_uploaded_files]; rewrite ?Hself; [|done..].
  split; [done|]. destruct Hend as [Hpolled Hdone].
  by exists store, operation, n, operation'.
Qed.

(** ** Batches *)

(** The loop of [upload_multiple_files] appends to its accumulator: what
    it returns from [results] is [results] followed by what it returns
    from the empty list. *)
Lemma upload_multiple_files_loop_acc (env : Env) (fuel : nat)
    (file_paths : list string) (results : list (string * option File))
    (s : State) :
  upload_multiple_files_loop env fuel file_paths results s =
  match upload_multiple_files_loop env fuel file_paths [] s with
  | (Ok results', s') => (Ok (results ++ results'), s')
  | (Raise e, s') => (Raise e, s')
  | (OutOfFuel, s') => (OutOfFuel, s')
  end.
Proof.
  revert results s.
  induction file_paths as [|file_path rest IH]; intros results s.
  - cbn. by rewrite app_nil_r.
  - cbn [upload_multiple_files_loop]. rewrite !bind_run.
    unfold try_except. rewrite !bind_run.
    destruct (upload_file env fuel file_path s) as [[handle|e|] s1];
      rewrite ?bind_run, ?print_run; cbn [mret M_ret]; [| |done].
    + rewrite (IH (results ++ _)), (IH ([] ++ _)).
      destruct (upload_multiple_files_loop env fuel rest [] s1)
        as [[results'|?|] s']; [|done..].
      by rewrite <- app_assoc.
    + rewrite (IH (results ++ _)), (IH ([] ++ _)).
      match goal with |- context [upload_multiple_files_loop _ _ _ [] ?s2] =>
        destruct (upload_multiple_files_loop env fuel rest [] s2)
          as [[results'|?|] s']; [|done..] end.
      by rewrite <- app_assoc.
Qed.

(** One iteration of the batch, read off the head of the list. *)
Lemma upload_multiple_files_cons (env : Env) (fuel : nat)
    (file_path : string) (rest : list string) (s : State) :
  upload_multiple_files env fuel (file_path :: rest) s =
  match upload_file env fuel file_path s with
  | (Ok handle, s1) =>
      match upload_multiple_files env fuel rest s1 with
      | (Ok results, s') => (Ok ((file_path, Some handle) :: results), s')
      | r => r
      end
  | (Raise e, s1) =>
      match upload_multiple_files env fuel rest
              (print ("Error uploading " +:+ file_path +:+ ": " +:+ exn_str e)
                     s1).2 with
      | (Ok results, s') => (Ok ((file_path, None) :: results), s')
      | r => r
      end
  | (OutOfFuel, s1) => (OutOfFuel, s1)
  end.
Proof.
  unfold upload_multiple_files. cbn [upload_multiple_files_loop].
  rewrite !bind_run. unfold try_except. rewrite !bind_run.
  destruct (upload_file env fuel file_path s) as [[handle|e|] s1];
    rewrite ?bind_run, ?print_run; cbn [mret M_ret app snd]; [| |done];
    rewrite upload_multiple_files_loop_acc;
    match goal with |- context [upload_multiple_files_loop _ _ _ [] ?s2] =>
      by destruct (upload_multiple_files_loop env fuel rest [] s2)
        as [[results'|?|] s'] end.
Qed.

(** The shape of the results of a run: one pair per path, in the order of
    the paths, as many [None] as failures and a handle everywhere else. *)
Lemma batch_run_results (env : Env) (fuel : nat) (s s' : State)
    (file_paths : list string) (results : list (string * option File))
    (failures : nat) :
  batch_run env fuel s file_paths results failures s' →
  length results = length file_paths ∧
  results.*1 = file_paths ∧
  length (filter (λ r, r.2 = None) results) = failures ∧
  length (filter (λ r, is_Some r.2) results) = length file_paths - failures ∧
  failures ≤ length file_paths.
Proof.
  induction 1 as [s|s file_path handle s1 rest results failures s' Hcall _ IH
                 |s file_path e s1 rest results failures s' Hcall _ IH].
  - done.
  - destruct IH as (Hlen & Hfst & Hnone & Hsome & Hle).
    rewrite filter_cons_False by (cbn; discriminate).
    rewrite filter_cons_True by (cbn; eauto).
    cbn. rewrite Hlen, Hfst, Hnone, Hsome.
    repeat split; try done; lia.
  - destruct IH as (Hlen & Hfst & Hnone & Hsome & Hle).
    rewrite filter_cons_True by done.
    rewrite filter_cons_False by (cbn; intros [? ?]; discriminate).
    cbn. rewrite Hlen, Hfst, Hnone, Hsome.
    repeat split; try done; lia.
Qed.

(** C4. [upload_multiple_files] never raises. When it returns, it returns
    one pair per input path, in input order; the pairs are those of a run
    of [upload_file] over the paths, so that with [failures] calls raising,
    exactly these [failures] paths are paired with [None] and the other
    paths with the handle their call returned, each call after a failure
    still being made. It fails to return only while one of the calls is
    itself still polling. *)
Theorem upload_multiple_files_results (env : Env) (fuel : nat)
    (file_paths : list string) (s : State) :
  match upload_multiple_files env fuel file_paths s with
  | (Ok results, s') =>
      length results = length file_paths ∧
      results.*1 = file_paths ∧
      ∃ failures,
        batch_run env fuel s file_paths results failures s' ∧
        length (filter (λ r, r.2 = None) results) = failures ∧
        length (filter (λ r, is_Some r.2) results) =
          length file_paths - failures
  | (Raise _, _) => False
  | (OutOfFuel, _) => batch_waits env fuel s file_paths
  end.
Proof.
  revert s. induction file_paths as [|file_path rest IH]; intros s.
  - cbn. repeat split. exists 0. repeat split. constructor.
  - rewrite upload_multiple_files_cons.
    destruct (upload_file env fuel file_path s) as [[handle|e|] s1] eqn:Hcall.
    + specialize (IH s1).
      destruct (upload_multiple_files env fuel rest s1)
        as [[results|?|] s']; [|done|].
      * destruct IH as (_ & _ & failures & Hrun & _).
        pose proof (batch_uploaded _ _ _ _ _ _ _ _ _ _ Hcall Hrun) as Hrun'.
        destruct (batch_run_results _ _ _ _ _ _ _ Hrun')
          as (Hlen & Hfst & Hnone & Hsome & _).
        split; [done|]. split; [done|]. by exists failures.
      * destruct IH
          as (before & p & after & results & failures & s2 & s3 & -> & Hrun
              & Hwait).
        exists (file_path :: before), p, after,
          ((file_path, Some handle) :: results), failures, s2, s3.
        split; [done|]. split; [|done]. by econstructor.
    + match goal with |- context [upload_multiple_files env fuel rest ?s2] =>
        specialize (IH s2);
        destruct (upload_multiple_files env fuel rest s2)
          as [[results|?|] s']; [|done|] end.
      * destruct IH as (_ & _ & failures & Hrun & _).
        pose proof (batch_failed _ _ _ _ _ _ _ _ _ _ Hcall Hrun) as Hrun'.
        destruct (batch_run_results _ _ _ _ _ _ _ Hrun')
          as (Hlen & Hfst & Hnone & Hsome & _).
        split; [done|]. split; [done|]. by exists (S failures).
      * destruct IH
          as (before & p & after & results & failures & s2 & s3 & -> & Hrun
              & Hwait).
        exists (file_path :: before), p, after,
          ((file_path, None) :: results), (S failures), s2, s3.
        split; [done|]. split; [|done]. by eapply batch_failed.
    + exists [], file_path, rest, [], 0, s, s1.
      split; [done|]. split; [constructor|done].
Qed.

(** ** Grounding sources *)

Lemma elem_of_foldl_add_source (t : option string)
    (chunks : list GroundingChunk) (sources : gset (option string)) :
  t ∈ foldl add_source sources chunks ↔
  t ∈ sources ∨
  ∃ chunk rc, chunk ∈ chunks ∧ retrieved_context chunk = Some rc ∧
              title rc = Some t.
Proof.
  revert sources. induction chunks as [|chunk chunks IH]; intros sources.
  - cbn. split; [by left|]. intros [?|(? & ? & []%elem_of_nil & _)]; done.
  - cbn [foldl]. rewrite IH. unfold add_source at 1. split.
    + intros [Hin|(chunk' & rc & Hin & Hrc & Ht)].
      * destruct (retrieved_context chunk) as [rc|] eqn:Hrc; [|by left].
        destruct (title rc) as [t'|] eqn:Ht; [|by left].
        apply elem_of_union in Hin as [->%elem_of_singleton|Hin]; [|by left].
        right. exists chunk, rc. split; [left|done].
      * right. exists chunk', rc. split; [by right|done].
    + intros [Hin|(chunk' & rc & Hin & Hrc & Ht)].
      * left. destruct (retrieved_context chunk) as [rc|]; [|done].
        destruct (title rc); [|done]. apply elem_of_union. by right.
      * apply elem_of_cons in Hin as [->|Hin].
        -- left. rewrite Hrc, Ht. apply elem_of_union. left.
           by apply elem_of_singleton.
        -- right. by exists chunk', rc.
Qed.

Lemma elem_of_collect_sources (t : option string)
    (chunks : list GroundingChunk) :
  t ∈ collect_sources chunks ↔
  ∃ chunk rc, chunk ∈ chunks ∧ retrieved_context chunk = Some rc ∧
              title rc = Some t.
Proof.
  unfold collect_sources. rewrite elem_of_foldl_add_source.
  split; [intros [[]%not_elem_of_empty|H]; done|by right].
Qed.

Lemma collect_sources_permutation (chunks chunks' : list GroundingChunk) :
  chunks ≡ₚ chunks' → collect_sources chunks = collect_sources chunks'.
Proof.
  intros Hperm. apply set_eq. intros t. rewrite !elem_of_collect_sources.
  by setoid_rewrite Hperm.
Qed.

(** The numbered lines, as the loop over [enumerate] prints them. *)
Lemma print_numbered_run (l : list (option string)) (start : nat)
    (s : State) :
  for_each (enumerate l start)
           (λ '(i, source), print (pretty i +:+ ". " +:+ py_str source)) s =
  (Ok (), {| self := self s;
             world :=
               {| environ := environ (world s);
                  effects := effects (world s);
                  stdout :=
                    stdout (world s) ++
                    imap (λ i source,
                            pretty (start + i) +:+ ". " +:+ py_str source)
                         l |} |}).
Proof.
  revert start s. induction l as [|x l IH]; intros start s.
  - cbn. rewrite app_nil_r. by destruct s as [? []].
  - cbn [enumerate for_each]. rewrite bind_run, print_run, IH.
    cbn [self world environ effects stdout with_line imap].
    rewrite <- app_assoc, Nat.add_0_r. do 4 f_equal. cbn [app]. f_equal.
    apply imap_ext. intros i y _. cbn. do 2 f_equal. lia.
Qed.

(** [show_sources] on a set without [None]: the heading, then the strings
    of the set in ascending order, numbered from 1. *)
Lemma show_sources_strings (env : Env) (sources : gset (option string))
    (s : State) :
  sources ≠ ∅ → None ∉ sources →
  show_sources env sources s =
  (Ok (), {| self := self s;
             world :=
               {| environ := environ (world s);
                  effects := effects (world s);
                  stdout :=
                    stdout (world s) ++
                    (nl +:+ "Sources:")
                    :: imap (λ i t, pretty (S i) +:+ ". " +:+ t)
                            (merge_sort String.le
                               (elements (set_omap id sources
                                          : gset string))) |} |}).
Proof.
  intros Hne Hnone. unfold show_sources, sorted.
  rewrite decide_False by done. run. rewrite decide_False by done. run.
  rewrite print_numbered_run. cbn [self world environ effects stdout with_line].
  rewrite <- app_assoc, imap_fmap. done.
Qed.

(** [show_sources] in general: it returns or raises the [TypeError] of
    [sorted], and touches neither the object nor the effects. *)
Lemma show_sources_frame (env : Env) (sources : gset (option string))
    (s : State) :
  ∃ out s',
    show_sources env sources s = (out, s') ∧
    (out = Ok () ∨ ∃ msg, out = Raise (TypeError msg)) ∧
    self s' = self s ∧ effects (world s') = effects (world s).
Proof.
  unfold show_sources, sorted.
  destruct (decide (sources = ∅)); [eexists _, _; split; [done|]; eauto|].
  run. destruct (decide (None ∈ sources)).
  - destruct (decide (sources = {[None]})); run.
    + rewrite print_numbered_run. eexists _, _. split; [done|]. eauto.
    + eexists _, _. split; [done|]. eauto.
  - run. rewrite print_numbered_run. eexists _, _. split; [done|]. eauto.
Qed.

(** [query] up to the display of the sources: on a session that passes
    the preconditions, with a response whose first candidate has grounding
    chunks, what is left to run is [show_sources] on the titles of these
    chunks. *)
Lemma query_grounded_run (env : Env) (question : string) (s : State)
    (store : FileSearchStore) (file : File) (files : list File)
    (response : GenerateContentResponse) (candidate : Candidate)
    (others : list Candidate) (chunk : GroundingChunk)
    (chunks : list GroundingChunk) :
  file_search_store (self s) = Some store →
  uploaded_files (self s) = file :: files →
  models_generate_content env (model_name (self s)) question [fss_name store]
    (effects (world s)) = inr response →
  candidates response = Some (candidate :: others) →
  grounding_metadata candidate =
    Some {| grounding_chunks := Some (chunk :: chunks) |} →
  query env question s =
  match show_sources env (collect_sources (chunk :: chunks))
          {| self := self s;
             world :=
               {| environ := environ (world s);
                  effects :=
                    effects (world s) ++
                    [GenerateContent (model_name (self s)) question
                                     [fss_name store]];
                  stdout :=
                    stdout (world s) ++
                    [nl +:+ "Query: " +:+ question; str_mul "-" 50;
                     nl +:+ "Answer:" +:+ nl +:+ py_str (text response)
                     +:+ nl] |} |} with
  | (Ok _, s') => (Ok response, s')
  | (Raise e, s') => (Raise e, s')
  | (OutOfFuel, s') => (OutOfFuel, s')
  end.
Proof.
  intros Hstore Hfiles Hreply Hcands Hgrounding.
  unfold query. run. rewrite Hstore, Hfiles. run.
  unfold remote at 1. cbn [self world effects with_line]. rewrite Hreply.
  run. rewrite Hcands, Hgrounding.
  unfold with_line, with_effect. cbn [environ effects stdout].
  rewrite <- !app_assoc. cbn [app].
  by destruct (show_sources _ _ _) as [[[]|e|] s'].
Qed.

(** C5. On a session that passes the preconditions, when the chunks of the
    first candidate carry titles (at least one does, and no title is
    [None]), [query] returns the response and prints, after the question,
    the rule and the answer, the heading and one line per source,
    numbered from 1. The sources are the titles carried by the chunks,
    each once, in ascending lexicographic order; and a response that
    differs only by the order of its chunks gives the same output. *)
Theorem query_displays_sorted_sources (env : Env) (question : string)
    (s : State) (store : FileSearchStore) (file : File) (files : list File)
    (response : GenerateContentResponse) (candidate : Candidate)
    (others : list Candidate) (chunks : list GroundingChunk) :
  file_search_store (self s) = Some store →
  uploaded_files (self s) = file :: files →
  models_generate_content env (model_name (self s)) question [fss_name store]
    (effects (world s)) = inr response →
  candidates response = Some (candidate :: others) →
  grounding_metadata candidate = Some {| grounding_chunks := Some chunks |} →
  Forall (λ chunk, ∀ rc, retrieved_context chunk = Some rc →
                         title rc ≠ Some None) chunks →
  Exists (λ chunk, ∃ rc t, retrieved_context chunk = Some rc ∧
                           title rc = Some (Some t)) chunks →
  ∃ s' sources,
    query env question s = (Ok response, s') ∧
    stdout (world s') =
      stdout (world s) ++
      [nl +:+ "Query: " +:+ question; str_mul "-" 50;
       nl +:+ "Answer:" +:+ nl +:+ py_str (text response) +:+ nl;
       nl +:+ "Sources:"] ++
      imap (λ i t, pretty (S i) +:+ ". " +:+ t) sources ∧
    (∀ t, t ∈ sources ↔
          ∃ chunk rc, chunk ∈ chunks ∧ retrieved_context chunk = Some rc ∧
                      title rc = Some (Some t)) ∧
    NoDup sources ∧
    StronglySorted String.le sources ∧
    ∀ env2 response2 candidate2 others2 chunks2,
      models_generate_content env2 (model_name (self s)) question
        [fss_name store] (effects (world s)) = inr response2 →
      text response2 = text response →
      candidates response2 = Some (candidate2 :: others2) →
      grounding_metadata candidate2 =
        Some {| grounding_chunks := Some chunks2 |} →
      chunks2 ≡ₚ chunks →
      stdout (world (query env2 question s).2) = stdout (world s').
Proof.
  intros Hstore Hfiles Hreply Hcands Hgrounding Hstrings Htitled.
  assert (None ∉ collect_sources chunks) as Hnone.
  { rewrite elem_of_collect_sources. intros (chunk & rc & Hin & Hrc & Ht).
    rewrite Forall_forall in Hstrings. by apply (Hstrings chunk Hin rc Hrc). }
  assert (collect_sources chunks ≠ ∅) as Hne.
  { apply Exists_exists in Htitled as (chunk & Hin & rc & t & Hrc & Ht).
    intros Hempty.
    assert (Some t ∈ collect_sources chunks) as Helem
      by (apply elem_of_collect_sources; eauto).
    rewrite Hempty in Helem. by apply not_elem_of_empty in Helem. }
  set (sources := merge_sort String.le
                    (elements (set_omap id (collect_sources chunks)
                               : gset string))).
  destruct chunks as [|chunk chunks']; [by apply Exists_nil in Htitled|].
  rewrite (query_grounded_run env question s store file files response
             candidate others chunk chunks') by done.
  rewrite show_sources_strings by done.
  eexists _, sources. split; [done|].
  cbn [self world stdout]. split; [by rewrite <- app_assoc|]. split.
  { intros t. unfold sources.
    rewrite merge_sort_Permutation, elem_of_elements, elem_of_set_omap.
    rewrite <- elem_of_collect_sources. split.
    - intros (x & Hx & Hid). unfold id in Hid. by subst x.
    - intros Hin. by exists (Some t). }
  split. { unfold sources. rewrite merge_sort_Permutation.
           apply NoDup_elements. }
  split. { apply (StronglySorted_merge_sort _). }
  intros env2 response2 candidate2 others2 chunks2 Hreply2 Htext Hcands2
    Hgrounding2 Hperm.
  pose proof (collect_sources_permutation _ _ Hperm) as Hsame.
  destruct chunks2 as [|chunk2 chunks2'];
    [by apply Permutation_nil_l in Hperm|].
  rewrite (query_grounded_run env2 question s store file files response2
             candidate2 others2 chunk2 chunks2') by done.
  rewrite Hsame, show_sources_strings by done.
  cbn [snd self world stdout]. by rewrite Htext.
Qed.

Lemma query_displays_sorted_sources_witness :
  ∃ s' sources,
    query service_ready "why?" (session [notes] (Some kb)) = (Ok answer, s') ∧
    stdout (world s') =
      stdout (world (session [notes] (Some kb))) ++
      [nl +:+ "Query: " +:+ "why?"; str_mul "-" 50;
       nl +:+ "Answer:" +:+ nl +:+ py_str (text answer) +:+ nl;
       nl +:+ "Sources:"] ++
      imap (λ i t, pretty (S i) +:+ ". " +:+ t) sources ∧
    (∀ t, t ∈ sources ↔
          ∃ chunk rc,
            chunk ∈ [titled "paper.pdf"; titled "notes.txt";
                     titled "paper.pdf"; {| retrieved_context := None |}] ∧
            retrieved_context chunk = Some rc ∧
            title rc = Some (Some t)) ∧
    NoDup sources ∧
    StronglySorted String.le sources ∧
    ∀ env2 response2 candidate2 others2 chunks2,
      models_generate_content env2
        (model_name (self (session [notes] (Some kb)))) "why?"
        [fss_name kb] (effects (world (session [notes] (Some kb))))
        = inr response2 →
      text response2 = text answer →
      candidates response2 = Some (candidate2 :: others2) →
      grounding_metadata candidate2 =
        Some {| grounding_chunks := Some chunks2 |} →
      chunks2 ≡ₚ [titled "paper.pdf"; titled "notes.txt";
                  titled "paper.pdf"; {| retrieved_context := None |}] →
      stdout (world (query env2 "why?" (session [notes] (Some kb))).2) =
      stdout (world s').
Proof.
  apply (query_displays_sorted_sources service_ready "why?"
           (session [notes] (Some kb)) kb notes [] answer
           {| grounding_metadata := Some {| grounding_chunks := Some [
                titled "paper.pdf"; titled "notes.txt"; titled "paper.pdf";
                {| retrieved_context := None |} ] |} |} []);
    [reflexivity..| |].
  - repeat constructor; intros rc [= <-]; discriminate.
  - left. by exists {| title := Some (Some "paper.pdf") |}, "paper.pdf".
Defined.

(** ** Fuel *)

(** Fuel only measures: a run that has ended, normally or on an exception,
    ends the same way with any larger fuel. *)
Lemma wait_import_fuel_mono (env : Env) (fuel fuel' : nat)
    (operation : Operation) (s s' : State) (out : Outcome Operation) :
  wait_import env fuel operation s = (out, s') →
  out ≠ OutOfFuel → fuel ≤ fuel' →
  wait_import env fuel' operation s = (out, s').
Proof.
  revert fuel' operation s.
  induction fuel as [|fuel IH]; intros fuel' operation s Hrun Hout Hle.
  - cbn [wait_import] in Hrun. destruct (done operation) eqn:Hdone.
    + destruct fuel'; cbn [wait_import]; by rewrite Hdone.
    + by injection Hrun as <- <-.
  - destruct fuel' as [|fuel']; [lia|]. cbn [wait_import] in *.
    destruct (done operation); [done|].
    revert Hrun. run. unfold remote.
    destruct (operations_get env operation _); [done|].
    intros Hrun. apply IH; [done|done|lia].
Qed.

Lemma upload_file_fuel_mono (env : Env) (fuel fuel' : nat)
    (file_path : string) (s s' : State) (out : Outcome File) :
  upload_file env fuel file_path s = (out, s') →
  out ≠ OutOfFuel → fuel ≤ fuel' →
  upload_file env fuel' file_path s = (out, s').
Proof.
  intros Hrun Hout Hle. revert Hrun. unfold upload_file. run.
  destruct (file_search_store (self s)) as [store|]; [|done].
  destruct (path_exists env file_path) as [e|[]]; cbn [negb]; run;
    cbn [negb]; [done| |done].
  run. unfold remote at 1 3.
  destruct (files_upload env _ _ _) as [e|uploaded_file]; [done|].
  run. unfold remote at 1 2.
  destruct (file_search_stores_import_file env _ _ _) as [e|operation];
    [done|].
  rewrite !bind_run.
  match goal with |- context [wait_import env fuel operation ?s1] =>
    destruct (wait_import env fuel operation s1) as [[operation'|e|] s2]
      eqn:Hwait end.
  - by rewrite (wait_import_fuel_mono _ _ fuel' _ _ _ _ Hwait).
  - by rewrite (wait_import_fuel_mono _ _ fuel' _ _ _ _ Hwait).
  - by intros [= <- <-].
Qed.

Lemma upload_multiple_files_fuel_mono (env : Env) (fuel fuel' : nat)
    (file_paths : list string) (s s' : State)
    (results : list (string * option File)) :
  upload_multiple_files env fuel file_paths s = (Ok results, s') →
  fuel ≤ fuel' →
  upload_multiple_files env fuel' file_paths s = (Ok results, s').
Proof.
  intros Hrun Hle. revert s s' results Hrun.
  induction file_paths as [|file_path rest IH]; intros s s' results; [done|].
  rewrite !upload_multiple_files_cons.
  destruct (upload_file env fuel file_path s) as [[handle|e|] s1] eqn:Hcall;
    [| |done].
  - rewrite (upload_file_fuel_mono _ _ fuel' _ _ _ _ Hcall) by done.
    destruct (upload_multiple_files env fuel rest s1)
      as [[results'|?|] s2] eqn:Hrest; [|done..].
    intros [= <- <-]. by rewrite (IH _ _ _ Hrest).
  - rewrite (upload_file_fuel_mono _ _ fuel' _ _ _ _ Hcall) by done.
    match goal with |- context [upload_multiple_files env fuel rest ?s2] =>
      destruct (upload_multiple_files env fuel rest s2)
        as [[results'|?|] s3] eqn:Hrest; [|done..] end.
    intros [= <- <-]. by rewrite (IH _ _ _ Hrest).
Qed.

(** ** The methods on concrete services *)

Example upload_multiple_files_mixed :
  (upload_multiple_files service_ready 2
     ["notes.txt"; "missing.txt"; "paper.pdf"] (session [] (Some kb))).1 =
  Ok [("notes.txt", Some {| f_name := "files/notes.txt" |});
      ("missing.txt", None);
      ("paper.pdf", Some {| f_name := "files/paper.pdf" |})].
Proof. vm_compute. reflexivity. Qed.

Example upload_multiple_files_all_fail :
  (upload_multiple_files service_failing 1 ["notes.txt"; "paper.pdf"]
     (session [] (Some kb))).1 =
  Ok [("notes.txt", None); ("paper.pdf", None)].
Proof. vm_compute. reflexivity. Qed.

Example upload_file_still_polling :
  (upload_file service_stuck 7 "notes.txt" (session [] (Some kb))).1 =
  OutOfFuel.
Proof. vm_compute. reflexivity. Qed.

Example upload_file_path_cannot_be_examined :
  upload_file service_ready 3 "locked/notes.txt" (session [] (Some kb)) =
  (Raise (OSError "[Errno 13] Permission denied: 'locked/notes.txt'"),
   session [] (Some kb)).
Proof. vm_compute. reflexivity. Qed.

Example query_shows_sources :
  stdout (world (query service_ready "why?"
                   (session [{| f_name := "files/notes.txt" |}] (Some kb))).2)
  = [nl +:+ "Query: why?";
     "--------------------------------------------------";
     nl +:+ "Answer:" +:+ nl +:+ "See the notes." +:+ nl;
     nl +:+ "Sources:"; "1. notes.txt"; "2. paper.pdf"].
Proof. vm_compute. reflexivity. Qed.

Example delete_files_all_fail :
  ∃ s',
    delete_files service_failing
      (session [{| f_name := "files/a" |}; {| f_name := "files/b" |}]
               (Some kb)) = (Ok (), s') ∧
    uploaded_files (self s') = [] ∧
    effects (world s') = [FilesDelete "files/a"; FilesDelete "files/b"].
Proof. eexists. vm_compute. repeat split. Qed.

Example init_with_environment_key :
  (__init__ None
     {| environ := {[ "GEMINI_API_KEY" := "secret" ]}; effects := [];
        stdout := [] |}).1 =
  Ok {| api_key := "secret"; client := {| client_api_key := "secret" |};
        uploaded_files := []; file_search_store := None;
        model_name := "gemini-2.5-pro" |}.
Proof. vm_compute. reflexivity. Qed.

Example init_with_empty_environment_key :
  (__init__ None
     {| environ := {[ "GEMINI_API_KEY" := EmptyString ]}; effects := [];
        stdout := [] |}).1 =
  Raise (ValueError "GEMINI_API_KEY not found in environment variables").
Proof. vm_compute. reflexivity. Qed.

(** * Further properties *)

(** ** Effect logs *)

Lemma grows_refl (P : Effect → bool) (s : State) : grows P s s.
Proof. exists []. by rewrite app_nil_r. Qed.

Lemma grows_trans (P : Effect → bool) (s1 s2 s3 : State) :
  grows P s1 s2 → grows P s2 s3 → grows P s1 s3.
Proof.
  intros (log1 & Heff1 & HP1) (log2 & Heff2 & HP2). exists (log1 ++ log2).
  split; [by rewrite Heff2, Heff1, app_assoc|].
  rewrite forallb_app, HP1, HP2. done.
Qed.

Lemma grows_weaken (P Q : Effect → bool) (s s' : State) :
  (∀ e, P e = true → Q e = true) → grows P s s' → grows Q s s'.
Proof.
  intros HPQ (log & Heff & HP). exists log. split; [done|].
  apply forallb_forall. intros e He.
  apply HPQ. by eapply forallb_forall in HP.
Qed.

Lemma grows_print (P : Effect → bool) (line : string) (s : State) :
  grows P s (print line s).2.
Proof. exists []. cbn. by rewrite app_nil_r. Qed.

Lemma poll_rounds_ingest (log : list Effect) :
  poll_rounds log = true → forallb is_ingest log = true.
Proof.
  assert (∀ n log, length log ≤ n → poll_rounds log = true →
                   forallb is_ingest log = true) as H.
  { clear log. induction n as [|n IH]; intros [|e1 [|e2 log]] Hlen Hrounds;
      cbn in *; try done; try lia.
    - by destruct e1 as [| | | | | | |[|[|[|]]]].
    - destruct e1 as [| | | | | | |[|[|[|]]]]; try done.
      destruct e2; try done. cbn. apply IH; [lia|done]. }
  by apply (H (length log)).
Qed.

(** What a call of [upload_file] leaves behind: effects of ingestion only,
    and the same object, with the returned handle tracked when the call
    returns. *)
Lemma upload_file_run (env : Env) (fuel : nat) (file_path : string)
    (s : State) :
  ∃ out s',
    upload_file env fuel file_path s = (out, s') ∧
    grows is_ingest s s' ∧
    self s' = match out with
              | Ok handle => tracking handle (self s)
              | _ => self s
              end.
Proof.
  unfold upload_file. run.
  destruct (file_search_store (self s)) as [store|] eqn:Hstore;
    [|eexists _, _; split; [done|]; split; [apply grows_refl|done]].
  destruct (path_exists env file_path) as [e|[]]; run; cbn [negb];
    [eexists _, _; split; [done|]; split; [apply grows_refl|done]|
    |eexists _, _; split; [done|]; split; [apply grows_refl|done]].
  run. unfold remote at 1. cbn [self world effects with_line with_effect].
  destruct (files_upload env _ _ _) as [e|uploaded_file].
  { eexists _, _. split; [done|]. split; [|done]. by eexists [_]. }
  run. unfold remote at 1. cbn [self world effects with_line with_effect].
  destruct (file_search_stores_import_file env _ _ _) as [e|operation].
  { eexists _, _. split; [done|]. split; [|done]. eexists [_; _].
    cbn. by rewrite <- app_assoc. }
  rewrite bind_run.
  match goal with |- context [wait_import env fuel operation ?s1] =>
    destruct (wait_import_run env fuel operation s1)
      as (n & log & out & s' & -> & _ & _ & Hrounds & Hself & _ & Heff & _) end.
  cbn [self world effects with_line with_effect] in Hself, Heff.
  apply poll_rounds_ingest in Hrounds.
  assert (effects (world s') =
          effects (world s) ++ (FilesUpload (path_str env file_path)
                                  (path_name env file_path)
                                :: StoresImportFile (fss_name store)
                                     (f_name uploaded_file) :: log)) as Heff'.
  { by rewrite Heff, <- !app_assoc. }
  destruct out as [operation'|e|]; run.
  - eexists _, _. split; [done|]. cbn [self world]. split.
    + by eexists (_ :: _ :: log).
    + unfold tracking. by rewrite Hself.
  - eexists _, _. split; [done|]. split; [|done]. by eexists (_ :: _ :: log).
  - eexists _, _. split; [done|]. split; [|done]. by eexists (_ :: _ :: log).
Qed.

(** What a batch leaves behind: effects of ingestion only, the same
    object but for the list of files, and, when it returns, that list
    grown by the handles of the results, in order. *)
Lemma upload_multiple_files_run (env : Env) (fuel : nat)
    (file_paths : list string) (s : State) :
  ∃ out s',
    upload_multiple_files env fuel file_paths s = (out, s') ∧
    grows is_ingest s s' ∧
    with_uploaded_files [] (self s') = with_uploaded_files [] (self s) ∧
    match out with
    | Ok results =>
        uploaded_files (self s') = uploaded_files (self s) ++ omap snd results
    | _ => True
    end.
Proof.
  revert s. induction file_paths as [|file_path rest IH]; intros s.
  - exists (Ok []), s. cbn. rewrite app_nil_r.
    split; [done|]. split; [apply grows_refl|done].
  - rewrite upload_multiple_files_cons.
    destruct (upload_file_run env fuel file_path s)
      as (out & s1 & -> & Hgrows & Hself).
    destruct out as [handle|e|].
    + destruct (IH s1) as (out & s' & -> & Hgrows' & Hframe & Hfiles).
      rewrite Hself in Hframe, Hfiles. cbn in Hframe, Hfiles.
      destruct out as [results|?|]; eexists _, _; (split; [done|]);
        (split; [by eapply grows_trans|]); (split; [done|]); [|done..].
      cbn. by rewrite Hfiles, <- app_assoc.
    + match goal with |- context [upload_multiple_files env fuel rest ?s2] =>
        destruct (IH s2) as (out & s' & -> & Hgrows' & Hframe & Hfiles) end.
      cbn [print snd self world] in Hgrows', Hframe, Hfiles.
      rewrite Hself in Hframe, Hfiles.
      assert (grows is_ingest s s') as Hg.
      { eapply grows_trans; [done|].
        destruct Hgrows' as (log & Heff & HP). by exists log. }
      destruct out as [results|?|]; eexists _, _; (split; [done|]);
        (split; [done|]); (split; [done|]); done.
    + eexists _, _. split; [done|]. split; [done|]. by rewrite Hself.
Qed.

(** ** Ingestion *)

(** X1. When a batch returns, the list of uploaded files has grown by
    exactly the handles of its results, in the order of the results, and
    the store reference is the one before the call. *)
Theorem upload_multiple_files_tracks_handles (env : Env) (fuel : nat)
    (file_paths : list string) (s s' : State)
    (results : list (string * option File)) :
  upload_multiple_files env fuel file_paths s = (Ok results, s') →
  uploaded_files (self s') = uploaded_files (self s) ++ omap snd results ∧
  file_search_store (self s') = file_search_store (self s).
Proof.
  intros Hrun.
  destruct (upload_multiple_files_run env fuel file_paths s)
    as (out & s'' & Hrun' & _ & Hframe & Hfiles).
  rewrite Hrun in Hrun'. injection Hrun' as <- <-.
  split; [done|]. by apply (f_equal file_search_store) in Hframe.
Qed.

Lemma upload_multiple_files_tracks_handles_witness :
  uploaded_files
    (self (upload_multiple_files service_ready 2
             ["notes.txt"; "missing.txt"; "paper.pdf"]
             (session [] (Some kb))).2) =
  [{| f_name := "files/notes.txt" |}; {| f_name := "files/paper.pdf" |}].
Proof.
  apply (upload_multiple_files_tracks_handles service_ready 2
           ["notes.txt"; "missing.txt"; "paper.pdf"] (session [] (Some kb)) _
           [("notes.txt", Some {| f_name := "files/notes.txt" |});
            ("missing.txt", None);
            ("paper.pdf", Some {| f_name := "files/paper.pdf" |})]).
  vm_compute. reflexivity.
Defined.

(** X2. Whatever the service replies and however the batch ends, the
    effects of [upload_multiple_files] are uploads, imports, polls and
    sleeps: it deletes nothing and asks for no generation. *)
Theorem upload_multiple_files_only_ingests (env : Env) (fuel : nat)
    (file_paths : list string) (s : State) :
  ∃ log,
    effects (world (upload_multiple_files env fuel file_paths s).2) =
      effects (world s) ++ log ∧
    forallb is_ingest log = true.
Proof.
  destruct (upload_multiple_files_run env fuel file_paths s)
    as (out & s' & -> & Hgrows & _). exact Hgrows.
Qed.

(** X3. On a session without a store a batch does not raise the
    precondition error: it returns every path paired with [None], sends
    nothing to the service, and prints one error line per path. *)
Theorem upload_multiple_files_without_store (env : Env) (fuel : nat)
    (file_paths : list string) (s : State) :
  file_search_store (self s) = None →
  upload_multiple_files env fuel file_paths s =
    (Ok (map (λ p, (p, None)) file_paths),
     {| self := self s;
        world :=
          {| environ := environ (world s);
             effects := effects (world s);
             stdout :=
               stdout (world s) ++
               map (λ p, "Error uploading " +:+ p +:+
                         ": No file search store created. Call create_store() first.")
                   file_paths |} |}).
Proof.
  revert s. induction file_paths as [|file_path rest IH]; intros s Hstore.
  - cbn. rewrite app_nil_r. by destruct s as [? []].
  - rewrite upload_multiple_files_cons.
    unfold upload_file at 1. run. rewrite Hstore. cbn [raise exn_str].
    rewrite IH by done. cbn. by rewrite <- app_assoc.
Qed.

Lemma upload_multiple_files_without_store_witness :
  (upload_multiple_files service_ready 2 ["notes.txt"; "paper.pdf"]
     (session [] None)).1 = Ok [("notes.txt", None); ("paper.pdf", None)].
Proof.
  rewrite (upload_multiple_files_without_store service_ready 2
             ["notes.txt"; "paper.pdf"] (session [] None)); reflexivity.
Defined.

(** X4. An import that the service reports done when it is created is
    never polled: with a store, an existing path and a successful upload,
    [upload_file] returns the handle after the upload and the import
    alone, without a sleep, and tracks the handle. *)
Theorem upload_file_done_at_once (env : Env) (fuel : nat)
    (file_path : string) (s : State) (store : FileSearchStore)
    (handle : File) (operation : Operation) :
  file_search_store (self s) = Some store →
  path_exists env file_path = inr true →
  files_upload env (path_str env file_path) (path_name env file_path)
    (effects (world s)) = inr handle →
  file_search_stores_import_file env (fss_name store) (f_name handle)
    (effects (world s) ++
     [FilesUpload (path_str env file_path) (path_name env file_path)])
  = inr operation →
  done operation = true →
  ∃ s',
    upload_file env fuel file_path s = (Ok handle, s') ∧
    self s' = tracking handle (self s) ∧
    effects (world s') =
      effects (world s) ++
      [FilesUpload (path_str env file_path) (path_name env file_path);
       StoresImportFile (fss_name store) (f_name handle)].
Proof.
  intros Hstore Hpath Hupload Himport Hdone.
  unfold upload_file. run. rewrite Hstore, Hpath. run. cbn [negb].
  run. unfold remote at 1. cbn [self world effects with_line with_effect].
  rewrite Hupload. run. unfold remote at 1.
  cbn [self world effects with_line with_effect]. rewrite Himport.
  rewrite bind_run.
  assert (∀ s1, wait_import env fuel operation s1 = (Ok operation, s1)) as ->.
  { intros s1. destruct fuel; cbn [wait_import]; by rewrite Hdone. }
  run. eexists. split; [done|]. cbn. split; [done|].
  by rewrite <- app_assoc.
Qed.

Lemma upload_file_done_at_once_witness :
  ∃ s',
    upload_file service_instant 0 "notes.txt" (session [] (Some kb)) =
      (Ok notes, s') ∧
    self s' = tracking notes (self (session [] (Some kb))) ∧
    effects (world s') =
      [FilesUpload "notes.txt" "notes.txt";
       StoresImportFile "fileSearchStores/kb" "files/notes.txt"].
Proof.
  apply (upload_file_done_at_once service_instant 0 "notes.txt"
           (session [] (Some kb)) kb notes
           {| op_name := "operations/files/notes.txt"; done := true |});
    reflexivity.
Defined.

(** ** Clean-up and what follows it *)

Lemma delete_files_run (env : Env) (s : State) :
  ∃ s',
    delete_files env s = (Ok (), s') ∧
    self s' = with_uploaded_files [] (self s) ∧
    effects (world s') =
      effects (world s) ++
      map (λ file, FilesDelete (f_name file)) (uploaded_files (self s)).
Proof.
  unfold delete_files. run.
  match goal with |- context [for_each _ _ ?s1] =>
    destruct (delete_loop_run env (uploaded_files (self s)) s1)
      as (s2 & -> & Hself & Heff) end.
  run. eexists. split; [reflexivity|]. cbn in *.
  by rewrite Hself, Heff.
Qed.

(** X5. When the upload succeeds and the import is refused, [upload_file]
    raises the error of the import after the two calls and the uploaded
    file is not tracked: a [delete_files] that follows sends deletions for
    the files tracked before only, none for the file just uploaded. *)
Theorem upload_file_import_refused (env : Env) (fuel : nat)
    (file_path : string) (s : State) (store : FileSearchStore)
    (handle : File) (e : exn) :
  file_search_store (self s) = Some store →
  path_exists env file_path = inr true →
  files_upload env (path_str env file_path) (path_name env file_path)
    (effects (world s)) = inr handle →
  file_search_stores_import_file env (fss_name store) (f_name handle)
    (effects (world s) ++
     [FilesUpload (path_str env file_path) (path_name env file_path)])
  = inl e →
  ∃ s1 s2,
    upload_file env fuel file_path s = (Raise e, s1) ∧
    self s1 = self s ∧
    effects (world s1) =
      effects (world s) ++
      [FilesUpload (path_str env file_path) (path_name env file_path);
       StoresImportFile (fss_name store) (f_name handle)] ∧
    delete_files env s1 = (Ok (), s2) ∧
    effects (world s2) =
      effects (world s1) ++
      map (λ file, FilesDelete (f_name file)) (uploaded_files (self s)).
Proof.
  intros Hstore Hpath Hupload Himport.
  unfold upload_file. run. rewrite Hstore, Hpath. run. cbn [negb].
  run. unfold remote at 1. cbn [self world effects with_line with_effect].
  rewrite Hupload. run. unfold remote at 1.
  cbn [self world effects with_line with_effect]. rewrite Himport.
  match goal with |- context [(Raise e, ?s1)] =>
    destruct (delete_files_run env s1) as (s2 & Hdel & _ & Heff);
    exists s1, s2 end.
  split; [done|]. split; [done|]. split; [cbn; by rewrite <- app_assoc|].
  split; [done|]. exact Heff.
Qed.

Lemma upload_file_import_refused_witness :
  ∃ s1 s2,
    upload_file service_import_refused 3 "notes.txt" (session [] (Some kb)) =
      (Raise (RemoteError "400 Unsupported file type"), s1) ∧
    self s1 = self (session [] (Some kb)) ∧
    effects (world s1) =
      [FilesUpload "notes.txt" "notes.txt";
       StoresImportFile "fileSearchStores/kb" "files/notes.txt"] ∧
    delete_files service_import_refused s1 = (Ok (), s2) ∧
    effects (world s2) = effects (world s1) ++ [].
Proof.
  apply (upload_file_import_refused service_import_refused 3 "notes.txt"
           (session [] (Some kb)) kb notes
           (RemoteError "400 Unsupported file type")); reflexivity.
Defined.

(** X6. [delete_files] is idempotent: called again, it returns without
    sending anything and leaves the object as the first call left it. *)
Theorem delete_files_twice (env : Env) (s : State) :
  ∃ s1 s2,
    delete_files env s = (Ok (), s1) ∧
    delete_files env s1 = (Ok (), s2) ∧
    effects (world s2) = effects (world s1) ∧
    self s2 = self s1.
Proof.
  destruct (delete_files_run env s) as (s1 & Hrun1 & Hself1 & _).
  destruct (delete_files_run env s1) as (s2 & Hrun2 & Hself2 & Heff2).
  exists s1, s2. split; [done|]. split; [done|].
  rewrite Hself1 in Heff2, Hself2. cbn in Heff2, Hself2.
  rewrite app_nil_r in Heff2. split; [done|]. by rewrite Hself2, Hself1.
Qed.

(** X7. After [delete_files] on a session with a store, the store is still
    referenced, and [query] is refused with the precondition error for
    missing files, without a call to the service. *)
Theorem delete_files_then_query (env : Env) (question : string) (s : State)
    (store : FileSearchStore) :
  file_search_store (self s) = Some store →
  ∃ s1,
    delete_files env s = (Ok (), s1) ∧
    file_search_store (self s1) = Some store ∧
    query env question s1 =
      (Raise (ValueError "No files uploaded. Call upload_file() first."), s1).
Proof.
  intros Hstore. destruct (delete_files_run env s) as (s1 & Hrun & Hself & _).
  exists s1. split; [done|]. rewrite Hself. cbn. split; [done|].
  unfold query. run. rewrite Hself. cbn. by rewrite Hstore.
Qed.

Lemma delete_files_then_query_witness :
  ∃ s1,
    delete_files service_ready (session [notes] (Some kb)) = (Ok (), s1) ∧
    file_search_store (self s1) = Some kb ∧
    query service_ready "why?" s1 =
      (Raise (ValueError "No files uploaded. Call upload_file() first."), s1).
Proof.
  apply (delete_files_then_query service_ready "why?"
           (session [notes] (Some kb)) kb). reflexivity.
Defined.

(** X8. After a [delete_store] that the service accepts, the list of
    uploaded files is the one before, and both [upload_file] and [query]
    are refused with the precondition error for a missing store, without a
    call to the service; a second [delete_store] sends nothing. *)
Theorem delete_store_then_refused (env : Env) (fuel : nat)
    (file_path question : string) (s : State) (store : FileSearchStore) :
  file_search_store (self s) = Some store →
  file_search_stores_delete env (fss_name store) (effects (world s))
    = inr () →
  ∃ s1 s2,
    delete_store env s = (Ok (), s1) ∧
    uploaded_files (self s1) = uploaded_files (self s) ∧
    upload_file env fuel file_path s1 =
      (Raise (ValueError
                "No file search store created. Call create_store() first."),
       s1) ∧
    query env question s1 =
      (Raise (ValueError
                "No file search store created. Call create_store() first."),
       s1) ∧
    delete_store env s1 = (Ok (), s2) ∧
    effects (world s2) = effects (world s1) ∧
    self s2 = self s1.
Proof.
  intros Hstore Hreply. unfold delete_store at 1. run. rewrite Hstore.
  unfold try_except. rewrite bind_run. unfold remote. rewrite Hreply. run.
  eexists _, _. split; [done|]. cbn [self world with_file_search_store
    uploaded_files]. split; [done|].
  split; [by unfold upload_file; run|]. split; [by unfold query; run|].
  unfold delete_store. run. done.
Qed.

Lemma delete_store_then_refused_witness :
  ∃ s1 s2,
    delete_store service_ready (session [notes] (Some kb)) = (Ok (), s1) ∧
    uploaded_files (self s1) = [notes] ∧
    upload_file service_ready 3 "notes.txt" s1 =
      (Raise (ValueError
                "No file search store created. Call create_store() first."),
       s1) ∧
    query service_ready "why?" s1 =
      (Raise (ValueError
                "No file search store created. Call create_store() first."),
       s1) ∧
    delete_store service_ready s1 = (Ok (), s2) ∧
    effects (world s2) = effects (world s1) ∧
    self s2 = self s1.
Proof.
  apply (delete_store_then_refused service_ready 3 "notes.txt" "why?"
           (session [notes] (Some kb)) kb); reflexivity.
Defined.

(** ** The store *)

(** X9. [create_store] sends one creation with the given display name.
    When the service answers, the answer becomes the store of the session,
    whatever store was referenced before, and is returned; when the call
    raises, the exception leaves the method and the object is as it was.
    The list of uploaded files is the same in both cases. *)
Theorem create_store_outcome (env : Env) (store_name : string) (s : State) :
  ∃ s',
    effects (world s') = effects (world s) ++ [StoresCreate store_name] ∧
    match file_search_stores_create env store_name (effects (world s)) with
    | inr store =>
        create_store env store_name s = (Ok store, s') ∧
        self s' = with_file_search_store (Some store) (self s)
    | inl e =>
        create_store env store_name s = (Raise e, s') ∧ self s' = self s
    end.
Proof.
  unfold create_store. run. unfold remote.
  cbn [self world effects with_line with_effect].
  destruct (file_search_stores_create env store_name (effects (world s)));
    run; eexists; (split; [|split; reflexivity]); done.
Qed.

(** X10. A store created and then deleted, both calls accepted: the
    deletion names the store that the creation returned, and the object is
    the one before the creation, without a store. *)
Theorem create_store_delete_store (env : Env) (store_name : string)
    (s : State) (store : FileSearchStore) :
  file_search_stores_create env store_name (effects (world s)) = inr store →
  file_search_stores_delete env (fss_name store)
    (effects (world s) ++ [StoresCreate store_name]) = inr () →
  ∃ s1 s2,
    create_store env store_name s = (Ok store, s1) ∧
    delete_store env s1 = (Ok (), s2) ∧
    self s2 = with_file_search_store None (self s) ∧
    effects (world s2) =
      effects (world s) ++
      [StoresCreate store_name; StoresDelete (fss_name store)].
Proof.
  intros Hcreate Hdelete. unfold create_store. run. unfold remote at 1.
  cbn [self world effects with_line with_effect]. rewrite Hcreate. run.
  eexists _, _. split; [done|].
  unfold delete_store. run. cbn [self file_search_store
    with_file_search_store]. unfold try_except. rewrite bind_run.
  unfold remote. cbn [self world effects with_line with_effect].
  rewrite Hdelete. run. split; [done|]. cbn. split; [done|].
  by rewrite <- app_assoc.
Qed.

Lemma create_store_delete_store_witness :
  ∃ s1 s2,
    create_store service_ready "kb" (session [] None) = (Ok kb, s1) ∧
    delete_store service_ready s1 = (Ok (), s2) ∧
    self s2 = with_file_search_store None (self (session [] None)) ∧
    effects (world s2) =
      [StoresCreate "kb"; StoresDelete "fileSearchStores/kb"].
Proof.
  apply (create_store_delete_store service_ready "kb" (session [] None) kb);
    reflexivity.
Defined.

(** ** Queries that reach the service *)

(** X11. On a session with a store and at least one uploaded file, [query]
    sends exactly one generation call, with the model of the session and
    the name of the store as the only search store, and the object is the
    same afterwards. It lets the exception of the call through; when the
    call answers it returns the response, unless the display of the
    sources raises the [TypeError] of sorting a [None] title with
    others. *)
Theorem query_sends_one_generation (env : Env) (question : string)
    (s : State) (store : FileSearchStore) (file : File) (files : list File) :
  file_search_store (self s) = Some store →
  uploaded_files (self s) = file :: files →
  ∃ out s',
    query env question s = (out, s') ∧
    self s' = self s ∧
    effects (world s') =
      effects (world s) ++
      [GenerateContent (model_name (self s)) question [fss_name store]] ∧
    match models_generate_content env (model_name (self s)) question
            [fss_name store] (effects (world s)) with
    | inl e => out = Raise e
    | inr response =>
        out = Ok response ∨ ∃ msg, out = Raise (TypeError msg)
    end.
Proof.
  intros Hstore Hfiles.
  destruct (models_generate_content env (model_name (self s)) question
              [fss_name store] (effects (world s)))
    as [e|response] eqn:Hreply.
  { unfold query. run. rewrite Hstore, Hfiles. run.
    unfold remote at 1. cbn [self world effects with_line]. rewrite Hreply.
    by eexists _, _. }
  destruct (candidates response) as [[|candidate others]|] eqn:Hcands.
  1,3: unfold query; run; rewrite Hstore, Hfiles; run;
    unfold remote at 1; cbn [self world effects with_line]; rewrite Hreply;
    run; rewrite Hcands; run; eexists _, _; (split; [done|]); eauto.
  destruct (grounding_metadata candidate) as [[[[|chunk chunks]|]]|]
    eqn:Hgrounding.
  1,3,4: unfold query; run; rewrite Hstore, Hfiles; run;
    unfold remote at 1; cbn [self world effects with_line]; rewrite Hreply;
    run; rewrite Hcands, Hgrounding; run; eexists _, _; (split; [done|]);
    eauto.
  rewrite (query_grounded_run env question s store file files response
             candidate others chunk chunks) by done.
  match goal with |- context [show_sources env ?T ?s3] =>
    destruct (show_sources_frame env T s3)
      as (out & s' & -> & Hout & Hself & Heff) end.
  cbn [self world effects] in Hself, Heff.
  destruct Hout as [-> | (msg & ->)]; eexists _, _; (split; [done|]); eauto.
Qed.

Lemma query_sends_one_generation_witness :
  ∃ out s',
    query service_ready "why?" (session [notes] (Some kb)) = (out, s') ∧
    self s' = self (session [notes] (Some kb)) ∧
    effects (world s') =
      [GenerateContent "gemini-2.5-pro" "why?" ["fileSearchStores/kb"]] ∧
    (out = Ok answer ∨ ∃ msg, out = Raise (TypeError msg)).
Proof.
  apply (query_sends_one_generation service_ready "why?"
           (session [notes] (Some kb)) kb notes []); reflexivity.
Defined.

(** X12. A response without candidates ([None] or an empty list) is not
    an error: [query] returns it, and what it prints is the question, the
    rule, the answer and the notice that no candidate was found. *)
Theorem query_without_candidates (env : Env) (question : string) (s : State)
    (store : FileSearchStore) (file : File) (files : list File)
    (response : GenerateContentResponse) :
  file_search_store (self s) = Some store →
  uploaded_files (self s) = file :: files →
  models_generate_content env (model_name (self s)) question [fss_name store]
    (effects (world s)) = inr response →
  candidates response = None ∨ candidates response = Some [] →
  ∃ s',
    query env question s = (Ok response, s') ∧
    stdout (world s') =
      stdout (world s) ++
      [nl +:+ "Query: " +:+ question; str_mul "-" 50;
       nl +:+ "Answer:" +:+ nl +:+ py_str (text response) +:+ nl;
       "No candidate responses found"].
Proof.
  intros Hstore Hfiles Hreply Hcands.
  unfold query. run. rewrite Hstore, Hfiles. run.
  unfold remote at 1. cbn [self world effects with_line]. rewrite Hreply.
  run. destruct Hcands as [-> | ->]; run; eexists; (split; [done|]); cbn;
    by rewrite <- !app_assoc.
Qed.

Lemma query_without_candidates_witness :
  ∃ s',
    query (service_answering answer_without_candidates) "why?"
      (session [notes] (Some kb)) = (Ok answer_without_candidates, s') ∧
    stdout (world s') =
      [nl +:+ "Query: why?"; str_mul "-" 50;
       nl +:+ "Answer:" +:+ nl +:+ "None" +:+ nl;
       "No candidate responses found"].
Proof.
  apply (query_without_candidates (service_answering answer_without_candidates)
           "why?" (session [notes] (Some kb)) kb notes []
           answer_without_candidates);
    [reflexivity..|right; reflexivity].
Defined.

(** X13. A first candidate without grounding metadata, or whose metadata
    has no chunks ([None] or an empty list), is not an error either:
    [query] returns the response and prints the notice that no grounding
    source was found, whatever the other candidates carry. *)
Theorem query_without_grounding (env : Env) (question : string) (s : State)
    (store : FileSearchStore) (file : File) (files : list File)
    (response : GenerateContentResponse) (candidate : Candidate)
    (others : list Candidate) :
  file_search_store (self s) = Some store →
  uploaded_files (self s) = file :: files →
  models_generate_content env (model_name (self s)) question [fss_name store]
    (effects (world s)) = inr response →
  candidates response = Some (candidate :: others) →
  grounding_metadata candidate = None ∨
  grounding_metadata candidate = Some {| grounding_chunks := None |} ∨
  grounding_metadata candidate = Some {| grounding_chunks := Some [] |} →
  ∃ s',
    query env question s = (Ok response, s') ∧
    stdout (world s') =
      stdout (world s) ++
      [nl +:+ "Query: " +:+ question; str_mul "-" 50;
       nl +:+ "Answer:" +:+ nl +:+ py_str (text response) +:+ nl;
       "No grounding sources found"].
Proof.
  intros Hstore Hfiles Hreply Hcands Hgrounding.
  unfold query. run. rewrite Hstore, Hfiles. run.
  unfold remote at 1. cbn [self world effects with_line]. rewrite Hreply.
  run. rewrite Hcands.
  destruct Hgrounding as [-> | [-> | ->]]; run; eexists; (split; [done|]);
    cbn; by rewrite <- !app_assoc.
Qed.

Lemma query_without_grounding_witness :
  ∃ s',
    query (service_answering answer_without_grounding) "why?"
      (session [notes] (Some kb)) = (Ok answer_without_grounding, s') ∧
    stdout (world s') =
      [nl +:+ "Query: why?"; str_mul "-" 50;
       nl +:+ "Answer:" +:+ nl +:+ "Yes." +:+ nl;
       "No grounding sources found"].
Proof.
  apply (query_without_grounding (service_answering answer_without_grounding)
           "why?" (session [notes] (Some kb)) kb notes []
           answer_without_grounding {| grounding_metadata := None |} []);
    [reflexivity..|left; reflexivity].
Defined.

(** X14. Chunks of which none has a retrieved context with a title are
    met with silence: after the answer [query] prints neither a list of
    sources nor the notice that no grounding source was found. *)
Theorem query_chunks_without_titles (env : Env) (question : string)
    (s : State) (store : FileSearchStore) (file : File) (files : list File)
    (response : GenerateContentResponse) (candidate : Candidate)
    (others : list Candidate) (chunk : GroundingChunk)
    (chunks : list GroundingChunk) :
  file_search_store (self s) = Some store →
  uploaded_files (self s) = file :: files →
  models_generate_content env (model_name (self s)) question [fss_name store]
    (effects (world s)) = inr response →
  candidates response = Some (candidate :: others) →
  grounding_metadata candidate =
    Some {| grounding_chunks := Some (chunk :: chunks) |} →
  Forall (λ c, ∀ rc, retrieved_context c = Some rc → title rc = None)
         (chunk :: chunks) →
  ∃ s',
    query env question s = (Ok response, s') ∧
    stdout (world s') =
      stdout (world s) ++
      [nl +:+ "Query: " +:+ question; str_mul "-" 50;
       nl +:+ "Answer:" +:+ nl +:+ py_str (text response) +:+ nl].
Proof.
  intros Hstore Hfiles Hreply Hcands Hgrounding Huntitled.
  assert (collect_sources (chunk :: chunks) = ∅) as Hnone.
  { apply set_eq. intros t. rewrite elem_of_collect_sources. split.
    - intros (c & rc & Hin & Hrc & Ht).
      rewrite Forall_forall in Huntitled.
      rewrite (Huntitled c Hin rc Hrc) in Ht. discriminate Ht.
    - intros []%not_elem_of_empty. }
  rewrite (query_grounded_run env question s store file files response
             candidate others chunk chunks) by done.
  rewrite Hnone. unfold show_sources. rewrite decide_True by done.
  by eexists.
Qed.

Lemma query_chunks_without_titles_witness :
  ∃ s',
    query (service_answering answer_without_titles) "why?"
      (session [notes] (Some kb)) = (Ok answer_without_titles, s') ∧
    stdout (world s') =
      [nl +:+ "Query: why?"; str_mul "-" 50;
       nl +:+ "Answer:" +:+ nl +:+ "Yes." +:+ nl].
Proof.
  apply (query_chunks_without_titles (service_answering answer_without_titles)
           "why?" (session [notes] (Some kb)) kb notes []
           answer_without_titles
           {| grounding_metadata := Some {| grounding_chunks := Some [
                {| retrieved_context := None |};
                {| retrieved_context := Some {| title := None |} |} ] |} |}
           [] {| retrieved_context := None |}
           [{| retrieved_context := Some {| title := None |} |}]);
    [reflexivity..|].
  repeat constructor; intros rc [= <-]; reflexivity.
Defined.

(** X15. When the chunks of the first candidate carry both a title that
    is [None] and a title that is a string, [query] does not return the
    response: after the generation call, and after printing the question,
    the rule, the answer and the heading of the sources, it raises the
    [TypeError] of [sorted]. The object is the same afterwards. *)
Theorem query_mixed_titles_raises (env : Env) (question : string)
    (s : State) (store : FileSearchStore) (file : File) (files : list File)
    (response : GenerateContentResponse) (candidate : Candidate)
    (others : list Candidate) (chunks : list GroundingChunk) :
  file_search_store (self s) = Some store →
  uploaded_files (self s) = file :: files →
  models_generate_content env (model_name (self s)) question [fss_name store]
    (effects (world s)) = inr response →
  candidates response = Some (candidate :: others) →
  grounding_metadata candidate = Some {| grounding_chunks := Some chunks |} →
  Exists (λ c, ∃ rc, retrieved_context c = Some rc ∧ title rc = Some None)
         chunks →
  Exists (λ c, ∃ rc t, retrieved_context c = Some rc ∧
                       title rc = Some (Some t)) chunks →
  ∃ msg s',
    query env question s = (Raise (TypeError msg), s') ∧
    self s' = self s ∧
    effects (world s') =
      effects (world s) ++
      [GenerateContent (model_name (self s)) question [fss_name store]] ∧
    stdout (world s') =
      stdout (world s) ++
      [nl +:+ "Query: " +:+ question; str_mul "-" 50;
       nl +:+ "Answer:" +:+ nl +:+ py_str (text response) +:+ nl;
       nl +:+ "Sources:"].
Proof.
  intros Hstore Hfiles Hreply Hcands Hgrounding Hnull Htitled.
  assert (None ∈ collect_sources chunks) as Hnone.
  { apply Exists_exists in Hnull as (c & Hin & rc & Hrc & Ht).
    apply elem_of_collect_sources. eauto. }
  assert (collect_sources chunks ≠ {[None]}) as Hmixed.
  { apply Exists_exists in Htitled as (c & Hin & rc & t & Hrc & Ht).
    intros Hone.
    assert (Some t ∈ collect_sources chunks) as Helem
      by (apply elem_of_collect_sources; eauto).
    rewrite Hone in Helem. by apply elem_of_singleton in Helem. }
  assert (collect_sources chunks ≠ ∅) as Hne.
  { intros Hempty. rewrite Hempty in Hnone.
    by apply not_elem_of_empty in Hnone. }
  destruct chunks as [|chunk chunks']; [by apply Exists_nil in Hnull|].
  rewrite (query_grounded_run env question s store file files response
             candidate others chunk chunks') by done.
  unfold show_sources, sorted. rewrite decide_False by done. run.
  rewrite decide_True, decide_False by done. run.
  eexists _, _. split; [done|]. cbn. split; [done|]. split; [done|].
  by rewrite <- app_assoc.
Qed.

Lemma query_mixed_titles_raises_witness :
  ∃ msg s',
    query (service_answering answer_with_mixed_titles) "why?"
      (session [notes] (Some kb)) = (Raise (TypeError msg), s') ∧
    self s' = self (session [notes] (Some kb)) ∧
    effects (world s') =
      [GenerateContent "gemini-2.5-pro" "why?" ["fileSearchStores/kb"]] ∧
    stdout (world s') =
      [nl +:+ "Query: why?"; str_mul "-" 50;
       nl +:+ "Answer:" +:+ nl +:+ "Yes." +:+ nl; nl +:+ "Sources:"].
Proof.
  apply (query_mixed_titles_raises
           (service_answering answer_with_mixed_titles) "why?"
           (session [notes] (Some kb)) kb notes [] answer_with_mixed_titles
           {| grounding_metadata :=
                Some {| grounding_chunks :=
                          Some [titled "notes.txt"; untitled] |} |} []
           [titled "notes.txt"; untitled]); [reflexivity..| |].
  - right. left. by exists {| title := Some None |}.
  - left. by exists {| title := Some (Some "notes.txt") |}, "notes.txt".
Defined.

(** X27. When [None] is the only title that the chunks of the first
    candidate carry, [query] returns the response and the list of sources
    it prints is the heading followed by the single line [1. None]. *)
Theorem query_null_title_alone (env : Env) (question : string)
    (s : State) (store : FileSearchStore) (file : File) (files : list File)
    (response : GenerateContentResponse) (candidate : Candidate)
    (others : list Candidate) (chunks : list GroundingChunk) :
  file_search_store (self s) = Some store →
  uploaded_files (self s) = file :: files →
  models_generate_content env (model_name (self s)) question [fss_name store]
    (effects (world s)) = inr response →
  candidates response = Some (candidate :: others) →
  grounding_metadata candidate = Some {| grounding_chunks := Some chunks |} →
  Exists (λ c, ∃ rc, retrieved_context c = Some rc ∧ title rc = Some None)
         chunks →
  Forall (λ c, ∀ rc t, retrieved_context c = Some rc →
                       title rc ≠ Some (Some t)) chunks →
  ∃ s',
    query env question s = (Ok response, s') ∧
    stdout (world s') =
      stdout (world s) ++
      [nl +:+ "Query: " +:+ question; str_mul "-" 50;
       nl +:+ "Answer:" +:+ nl +:+ py_str (text response) +:+ nl;
       nl +:+ "Sources:"; "1. None"].
Proof.
  intros Hstore Hfiles Hreply Hcands Hgrounding Hnull Hstrings.
  assert (collect_sources chunks = {[None]}) as Hone.
  { apply set_eq. intros t. rewrite elem_of_singleton. split.
    - rewrite elem_of_collect_sources. intros (c & rc & Hin & Hrc & Ht).
      destruct t as [t|]; [|done].
      rewrite Forall_forall in Hstrings. by destruct (Hstrings c Hin rc t Hrc).
    - intros ->. apply Exists_exists in Hnull as (c & Hin & rc & Hrc & Ht).
      apply elem_of_collect_sources. eauto. }
  destruct chunks as [|chunk chunks']; [by apply Exists_nil in Hnull|].
  rewrite (query_grounded_run env question s store file files response
             candidate others chunk chunks') by done.
  rewrite Hone. unfold show_sources, sorted.
  rewrite decide_False by (intros Hempty;
    assert (None ∈ ({[None]} : gset (option string))) as Hin
      by (by apply elem_of_singleton);
    rewrite Hempty in Hin; by apply not_elem_of_empty in Hin).
  run. rewrite decide_True by (by apply elem_of_singleton).
  rewrite decide_True by done. run.
  eexists. split; [done|]. cbn. rewrite <- !app_assoc. done.
Qed.

Lemma query_null_title_alone_witness :
  ∃ s',
    query (service_answering answer_with_null_title) "why?"
      (session [notes] (Some kb)) = (Ok answer_with_null_title, s') ∧
    stdout (world s') =
      [nl +:+ "Query: why?"; str_mul "-" 50;
       nl +:+ "Answer:" +:+ nl +:+ "Yes." +:+ nl;
       nl +:+ "Sources:"; "1. None"].
Proof.
  apply (query_null_title_alone (service_answering answer_with_null_title)
           "why?" (session [notes] (Some kb)) kb notes []
           answer_with_null_title
           {| grounding_metadata :=
                Some {| grounding_chunks := Some [untitled] |} |} []
           [untitled]); [reflexivity..| |].
  - left. by exists {| title := Some None |}.
  - repeat constructor. intros rc t [= <-]. discriminate.
Defined.

(** ** The poll, counted *)

(** X16. When the service reports done for the first time at poll [n],
    [upload_file]'s wait returns that report after exactly [n] rounds (so
    after [2 * n] seconds of sleep and [n] polls), for any bound on the
    rounds that is at least [n]. *)
Theorem wait_import_stops_at_first_done (env : Env) (fuel n : nat)
    (operation operation' : Operation) (s : State) :
  polled env (effects (world s)) operation n = inr operation' →
  done operation' = true →
  (∀ j pending_report, j < n →
     polled env (effects (world s)) operation j = inr pending_report →
     done pending_report = false) →
  n ≤ fuel →
  ∃ s',
    wait_import env fuel operation s = (Ok operation', s') ∧
    self s' = self s ∧
    length (effects (world s')) = length (effects (world s)) + 2 * n.
Proof.
  intros Hn Hdone Hfirst Hfuel.
  destruct (wait_import_run env fuel operation s)
    as (m & log & out & s' & Hrun & Hle & Hlen & _ & Hself & _ & Heff
        & Hpending & Hend).
  assert (n ≤ m → m = n) as Hmn.
  { intros Hnm. destruct (decide (m = n)) as [|Hne]; [done|].
    destruct (Hpending n) as (report & Hreport & Hpend); [lia|].
    rewrite Hn in Hreport. injection Hreport as <-.
    rewrite Hdone in Hpend. discriminate Hpend. }
  destruct out as [report|e|].
  - destruct Hend as [Hreport Hdone'].
    destruct (decide (m < n)) as [Hlt|Hge].
    + rewrite (Hfirst m report Hlt Hreport) in Hdone'. discriminate Hdone'.
    + assert (m = n) as -> by (apply Hmn; lia).
      rewrite Hn in Hreport. injection Hreport as <-.
      exists s'. split; [done|]. split; [done|].
      rewrite Heff, length_app. lia.
  - destruct Hend as [_ Hraise].
    destruct (decide (m ≤ n)) as [Hmle|Hgt].
    + rewrite (polled_raise_mono env n m _ _ e Hraise Hmle) in Hn.
      discriminate Hn.
    + assert (m = n) by (apply Hmn; lia). lia.
  - destruct Hend as [Hm (report & Hreport & Hpend)].
    assert (m = n) as -> by (apply Hmn; lia).
    rewrite Hn in Hreport. injection Hreport as <-.
    rewrite Hdone in Hpend. discriminate Hpend.
Qed.

Lemma wait_import_stops_at_first_done_witness :
  ∃ s',
    wait_import service_ready 5 pending (session [] (Some kb)) =
      (Ok {| op_name := "operations/files/notes.txt"; done := true |}, s') ∧
    self s' = self (session [] (Some kb)) ∧
    length (effects (world s')) = 0 + 2 * 2.
Proof.
  apply (wait_import_stops_at_first_done service_ready 5 2 pending
           {| op_name := "operations/files/notes.txt"; done := true |}
           (session [] (Some kb))); [reflexivity|reflexivity| |lia].
  intros [|[|j]] report Hj Hreport; [| |lia];
    vm_compute in Hreport; injection Hreport as <-; reflexivity.
Defined.

(** ** Construction, continued *)

(** X17. An explicit key that is not empty wins over the environment; a
    missing or empty argument falls back on a [GEMINI_API_KEY] that is not
    empty. A key that holds a NUL byte is refused by [os.environ]: the
    constructor raises [ValueError] and the world is as it was. With any
    other key the object starts with that key, the model
    [gemini-2.5-pro], no store and no file; the key is exported as
    [GOOGLE_API_KEY], and nothing is sent to the service. *)
Theorem init_with_credential (arg : option string) (w : World)
    (c : Ascii.ascii) (k : string) :
  arg = Some (String c k) ∨
  (truthy arg = false ∧ environ w !! "GEMINI_API_KEY" = Some (String c k)) →
  __init__ arg w =
    if has_nul (String c k) then
      (Raise (ValueError "embedded null byte"), w)
    else
      (Ok {| api_key := String c k;
             client := {| client_api_key := String c k |};
             uploaded_files := [];
             file_search_store := None;
             model_name := "gemini-2.5-pro" |},
       {| environ := <["GOOGLE_API_KEY" := String c k]> (environ w);
          effects := effects w;
          stdout := stdout w ++ ["Initialized with model: gemini-2.5-pro"] |}).
Proof.
  intros [-> | [Harg Henv]]; unfold __init__, py_or; [done|].
  by rewrite Harg, Henv.
Qed.

Lemma init_with_credential_witness :
  (__init__ (Some EmptyString) world_with_key).1 =
  Ok {| api_key := "secret"; client := {| client_api_key := "secret" |};
        uploaded_files := []; file_search_store := None;
        model_name := "gemini-2.5-pro" |}.
Proof.
  rewrite (init_with_credential (Some EmptyString) world_with_key
             (Ascii.ascii_of_nat 115) "ecret"); [reflexivity|].
  right. split; reflexivity.
Defined.

Example init_with_nul_in_key :
  __init__ (Some key_with_nul) world_with_key =
  (Raise (ValueError "embedded null byte"), world_with_key).
Proof. vm_compute. reflexivity. Qed.

(** X18. An object that the constructor has just returned has no store:
    until [create_store] is called, [upload_file] and [query] are refused
    with the precondition error and send nothing. *)
Theorem init_then_refused (env : Env) (arg : option string) (w w' : World)
    (obj : GeminiRAG) (fuel : nat) (file_path question : string) :
  __init__ arg w = (Ok obj, w') →
  upload_file env fuel file_path {| self := obj; world := w' |} =
    (Raise (ValueError
              "No file search store created. Call create_store() first."),
     {| self := obj; world := w' |}) ∧
  query env question {| self := obj; world := w' |} =
    (Raise (ValueError
              "No file search store created. Call create_store() first."),
     {| self := obj; world := w' |}).
Proof.
  unfold __init__.
  destruct (py_or arg (environ w !! "GEMINI_API_KEY")) as [[|c k]|];
    [done| |done].
  destruct (has_nul (String c k)); [done|]. intros [= <- <-].
  split; [by unfold upload_file; run|by unfold query; run].
Qed.

Lemma init_then_refused_witness :
  (query service_ready "why?"
     {| self := {| api_key := "secret";
                   client := {| client_api_key := "secret" |};
                   uploaded_files := []; file_search_store := None;
                   model_name := "gemini-2.5-pro" |};
        world := (__init__ None world_with_key).2 |}).1 =
  Raise (ValueError
           "No file search store created. Call create_store() first.").
Proof.
  destruct (init_then_refused service_ready None world_with_key
              (__init__ None world_with_key).2
              {| api_key := "secret";
                 client := {| client_api_key := "secret" |};
                 uploaded_files := []; file_search_store := None;
                 model_name := "gemini-2.5-pro" |}
              0 "notes.txt" "why?") as [_ ->]; reflexivity.
Defined.

(** ** The question loop of [main] *)

Lemma query_frame (env : Env) (question : string) (s : State) :
  ∃ out s',
    query env question s = (out, s') ∧ out ≠ OutOfFuel ∧
    self s' = self s ∧
    effects (world s') =
      effects (world s) ++ generation_of (self s) question.
Proof.
  unfold query, generation_of. run.
  destruct (file_search_store (self s)) as [store|];
    [|eexists _, _; by rewrite app_nil_r].
  destruct (uploaded_files (self s)) as [|file files];
    [eexists _, _; by rewrite app_nil_r|].
  run. unfold remote at 1. cbn [self world effects with_line].
  destruct (models_generate_content env _ _ _ _) as [e|response];
    [by eexists _, _|]. run.
  destruct (candidates response) as [[|candidate others]|];
    [run; by eexists _, _| |run; by eexists _, _].
  destruct (grounding_metadata candidate) as [[[[|chunk chunks]|]]|];
    [run; by eexists _, _| |run; by eexists _, _..].
  match goal with |- context [show_sources env ?T ?s3] =>
    destruct (show_sources_frame env T s3)
      as (out & s' & -> & Hout & Hself & Heff) end.
  cbn [self world effects with_line with_effect] in Hself, Heff.
  destruct Hout as [-> | (msg & ->)]; run; eexists _, _;
    (split; [done|]); (split; [done|]); by rewrite Hself, Heff.
Qed.

Lemma eof_loop_run (fuel : nat) (s : State) :
  ∃ s',
    eof_loop fuel s = (OutOfFuel, s') ∧ self s' = self s ∧
    effects (world s') = effects (world s) ∧
    stdout (world s') =
      stdout (world s) ++ replicate fuel "Error: EOF when reading a line".
Proof.
  revert s. induction fuel as [|fuel IH]; intros s.
  - exists s. cbn. by rewrite app_nil_r.
  - cbn [eof_loop]. rewrite bind_run, print_run.
    match goal with |- context [eof_loop fuel ?s1] =>
      destruct (IH s1) as (s' & -> & Hself & Heff & Hout) end.
    exists s'. cbn in *. rewrite Hout, <- app_assoc. done.
Qed.

Lemma interactive_loop_run (env : Env) (host : Host) (fuel : nat)
    (stdin : list Input) (s : State) :
  ∃ s',
    interactive_loop env host fuel stdin s =
      (if existsb (ends_session host) stdin then Ok () else OutOfFuel, s') ∧
    self s' = self s ∧
    effects (world s') =
      effects (world s) ++
      flat_map (generation_of (self s)) (questions host stdin).
Proof.
  revert s. induction stdin as [|[text| |] rest IH]; intros s.
  - destruct (eof_loop_run fuel s) as (s' & Hrun & Hself & Heff & _).
    exists s'. cbn. by rewrite app_nil_r.
  - cbn [interactive_loop questions existsb ends_session].
    destruct (bool_decide (lower host (strip host text) ∈ quit_words));
      cbn [orb]; [exists s; cbn; by rewrite app_nil_r|].
    rewrite bind_run. unfold try_except.
    destruct (strip host text) as [|c q] eqn:Hstrip.
    + cbn [mret M_ret]. destruct (IH s) as (s' & -> & Hself & Heff).
      by exists s'.
    + rewrite bind_run.
      destruct (query_frame env (String c q) s)
        as (out & s1 & -> & Hout & Hself1 & Heff1).
      destruct out as [response|e|]; [| |done]; cbn [mret M_ret];
        rewrite ?print_run;
        match goal with |- context [interactive_loop env host fuel rest ?s2] =>
          destruct (IH s2) as (s' & -> & Hself & Heff) end;
        exists s'; cbn [self world effects with_line] in *;
        rewrite Hself1 in *; (split; [done|]); (split; [done|]);
        cbn [flat_map]; by rewrite Heff, Heff1, <- app_assoc.
  - exists s. cbn. by rewrite app_nil_r.
  - cbn [interactive_loop questions existsb ends_session orb].
    rewrite bind_run, print_run.
    match goal with |- context [interactive_loop env host fuel rest ?s1] =>
      destruct (IH s1) as (s' & -> & Hself & Heff) end.
    by exists s'.
Qed.

(** X19. The question loop never lets an exception out. It ends exactly
    when standard input holds an interrupt at the prompt or a line that is
    [quit], [exit] or [q] once stripped and lowered; an end of file does
    not end it, and when standard input ends for good first, the loop
    goes on for ever, whatever bound is put on its iterations. The object
    is the same throughout. *)
Theorem interactive_loop_ends (env : Env) (host : Host) (fuel : nat)
    (stdin : list Input) (s : State) :
  (interactive_loop env host fuel stdin s).1 =
    (if existsb (ends_session host) stdin then Ok () else OutOfFuel) ∧
  self (interactive_loop env host fuel stdin s).2 = self s.
Proof.
  destruct (interactive_loop_run env host fuel stdin s) as (s' & -> & Hself & _).
  done.
Qed.

(** X20. What the loop sends is one generation call per question, in
    order, the questions being the lines read before the one that ends the
    loop, stripped, the empty ones left out; and on an object without a
    store or without a file it sends nothing at all. *)
Theorem interactive_loop_generations (env : Env) (host : Host) (fuel : nat)
    (stdin : list Input) (s : State) :
  effects (world (interactive_loop env host fuel stdin s).2) =
    effects (world s) ++
    match file_search_store (self s), uploaded_files (self s) with
    | Some store, _ :: _ =>
        map (λ question,
               GenerateContent (model_name (self s)) question
                               [fss_name store])
            (questions host stdin)
    | _, _ => []
    end.
Proof.
  destruct (interactive_loop_run env host fuel stdin s)
    as (s' & Hrun & _ & Heff).
  rewrite Hrun. cbn [snd]. rewrite Heff. clear Hrun Heff. f_equal.
  unfold generation_of.
  induction (questions host stdin) as [|q qs IH]; cbn [flat_map map].
  - by destruct (file_search_store (self s)), (uploaded_files (self s)).
  - rewrite IH.
    by destruct (file_search_store (self s)), (uploaded_files (self s)).
Qed.

(** X21. At the end of standard input each iteration of the loop prints
    the message of [EOFError] and sends nothing: after any number of
    iterations the loop is still running, with that many error lines
    printed. *)
Theorem interactive_loop_at_eof (env : Env) (host : Host) (fuel : nat)
    (s : State) :
  ∃ s',
    interactive_loop env host fuel [] s = (OutOfFuel, s') ∧
    effects (world s') = effects (world s) ∧
    stdout (world s') =
      stdout (world s) ++ replicate fuel "Error: EOF when reading a line".
Proof.
  destruct (eof_loop_run fuel s) as (s' & Hrun & _ & Heff & Hout).
  by exists s'.
Qed.

(** ** [main] *)

Lemma grows_bind {A B} (P : Effect → bool) (c : M A) (f : A → M B)
    (s : State) :
  grows P s (c s).2 → (∀ a s1, grows P s1 (f a s1).2) →
  grows P s ((c ≫= f) s).2.
Proof.
  intros Hc Hf. rewrite bind_run. specialize (Hf).
  destruct (c s) as [[a|e|] s1]; cbn [snd] in *; [|done..].
  by eapply grows_trans.
Qed.

Lemma create_store_grows (P : Effect → bool) (env : Env)
    (store_name : string) (s : State) :
  P (StoresCreate store_name) = true →
  grows P s (create_store env store_name s).2.
Proof.
  intros HP. unfold create_store. run. unfold remote.
  cbn [self world effects with_line with_effect].
  destruct (file_search_stores_create env store_name (effects (world s)));
    run; exists [StoresCreate store_name]; cbn; by rewrite HP.
Qed.

Lemma interactive_loop_grows (env : Env) (host : Host) (fuel : nat)
    (stdin : list Input) (s : State) :
  grows is_generate s (interactive_loop env host fuel stdin s).2.
Proof.
  destruct (interactive_loop_run env host fuel stdin s)
    as (s' & -> & _ & Heff).
  eexists. split; [exact Heff|]. clear Heff. unfold generation_of.
  induction (questions host stdin) as [|q qs IH]; [done|].
  cbn [flat_map]. rewrite forallb_app, IH.
  by destruct (file_search_store (self s)), (uploaded_files (self s)).
Qed.

Lemma flat_map_generation_of_nil (o : GeminiRAG) (qs : list string) :
  uploaded_files o = [] ∨ file_search_store o = None →
  flat_map (generation_of o) qs = [].
Proof.
  intros Ho. induction qs as [|q qs IH]; [done|].
  cbn [flat_map]. rewrite IH, app_nil_r. unfold generation_of.
  destruct Ho as [-> | ->]; [by destruct (file_search_store o)|done].
Qed.

Lemma main_session_grows (env : Env) (host : Host) (fuel : nat)
    (stdin : list Input) (s : State) :
  grows (λ e, negb (is_delete e)) s (main_session env host fuel stdin s).2.
Proof.
  unfold main_session. apply grows_bind; [by apply create_store_grows|].
  intros _ s1. apply grows_bind.
  { unfold local. destruct (path_exists env "documents"); apply grows_refl. }
  clear s1. intros found s1. destruct (found && is_dir host "documents").
  - apply grows_bind; [apply grows_print|]. intros _ s2.
    apply grows_bind.
    { destruct (glob host "documents" "*.txt" ++ glob host "documents" "*.pdf"
                ++ glob host "documents" "*.md") as [|file files];
        [apply grows_print|].
      apply grows_bind; [|intros; apply grows_refl].
      destruct (upload_multiple_files_run env fuel (file :: files) s2)
        as (out & s3 & -> & Hgrows & _).
      eapply grows_weaken; [|exact Hgrows]. by intros []. }
    intros _ s3. repeat (apply grows_bind; [apply grows_print|]; intros _ ?).
    apply grows_bind; [|intros; apply grows_print].
    eapply grows_weaken; [|apply interactive_loop_grows]. by intros [].
  - repeat (apply grows_bind; [apply grows_print|]; intros _ ?).
    apply grows_print.
Qed.

(** X22. Without a credential [main] stops at the constructor: the
    [ValueError] leaves it, the world is as it was, and standard input is
    not read. *)
Theorem main_without_credential (env : Env) (host : Host) (fuel : nat)
    (stdin : list Input) (w : World) :
  environ w !! "GEMINI_API_KEY" = None ∨
  environ w !! "GEMINI_API_KEY" = Some EmptyString →
  main env host fuel stdin w =
    (Raise (ValueError "GEMINI_API_KEY not found in environment variables"),
     w).
Proof.
  intros Henv. unfold main, __init__, py_or. cbn [truthy].
  by destruct Henv as [-> | ->].
Qed.

Lemma main_without_credential_witness :
  main service_ready (host_ascii true) 3 [Line "why?"; Line "quit"] world0 =
    (Raise (ValueError "GEMINI_API_KEY not found in environment variables"),
     world0).
Proof. apply main_without_credential. left. reflexivity. Defined.

(** X23. Without a documents directory [main] creates the store, explains
    what is missing and returns: the creation is the only call, no
    question is read, and the store is left behind. *)
Theorem main_without_documents (env : Env) (host : Host) (fuel : nat)
    (stdin : list Input) (w : World) (c : Ascii.ascii) (k : string)
    (store : FileSearchStore) (found : bool) :
  environ w !! "GEMINI_API_KEY" = Some (String c k) →
  has_nul (String c k) = false →
  file_search_stores_create env "my-knowledge-base" (effects w) = inr store →
  path_exists env "documents" = inr found →
  found && is_dir host "documents" = false →
  ∃ w',
    main env host fuel stdin w = (Ok (), w') ∧
    effects w' = effects w ++ [StoresCreate "my-knowledge-base"] ∧
    stdout w' =
      stdout w ++
      ["Initialized with model: gemini-2.5-pro";
       "Creating file search store: my-knowledge-base";
       "File search store created: " +:+ fss_name store;
       nl +:+ "No 'documents' directory found.";
       "Please create a 'documents' directory and add your files there.";
       "Supported formats: .txt, .pdf, .md, and many more"].
Proof.
  intros Henv Hkey Hcreate Hfound Hdir. unfold main, __init__, py_or.
  cbn [truthy]. rewrite Henv, Hkey.
  unfold main_session, create_store. run. unfold remote.
  cbn [self world effects with_line with_effect with_environ].
  rewrite Hcreate. run. rewrite Hfound. run. rewrite Hdir. run.
  eexists. split; [reflexivity|]. cbn. split; [done|].
  by rewrite <- !app_assoc.
Qed.

Lemma main_without_documents_witness :
  ∃ w',
    main service_ready (host_ascii false) 3 [Line "why?"] world_with_key =
      (Ok (), w') ∧
    effects w' = [StoresCreate "my-knowledge-base"] ∧
    stdout w' =
      ["Initialized with model: gemini-2.5-pro";
       "Creating file search store: my-knowledge-base";
       "File search store created: fileSearchStores/my-knowledge-base";
       nl +:+ "No 'documents' directory found.";
       "Please create a 'documents' directory and add your files there.";
       "Supported formats: .txt, .pdf, .md, and many more"].
Proof.
  apply (main_without_documents service_ready (host_ascii false) 3
           [Line "why?"] world_with_key (Ascii.ascii_of_nat 115) "ecret"
           {| fss_name := "fileSearchStores/my-knowledge-base" |} true);
    reflexivity.
Defined.

(** X24. [main] never deletes: whatever the service, the host and
    standard input, and however the run ends, the effects of [main] hold
    no deletion of a file or of a store, so what it created remotely is
    left behind. *)
Theorem main_never_deletes (env : Env) (host : Host) (fuel : nat)
    (stdin : list Input) (w : World) :
  ∃ log,
    effects (main env host fuel stdin w).2 = effects w ++ log ∧
    forallb (λ e, negb (is_delete e)) log = true.
Proof.
  unfold main.
  destruct (__init__ None w) as [[rag|e|] w1] eqn:Hinit.
  - assert (effects w1 = effects w) as Heff.
    { unfold __init__ in Hinit.
      destruct (py_or None (environ w !! "GEMINI_API_KEY")) as [[|c k]|];
        [by simplify_eq| |by simplify_eq].
      destruct (has_nul (String c k)); by simplify_eq. }
    destruct (main_session_grows env host fuel stdin
                {| self := rag; world := w1 |}) as (log & Hlog & Hkept).
    exists log. cbn [snd self world] in *. by rewrite Hlog, Heff.
  - assert (w1 = w) as ->.
    { unfold __init__ in Hinit.
      destruct (py_or None (environ w !! "GEMINI_API_KEY")) as [[|c k]|];
        [by simplify_eq| |by simplify_eq].
      destruct (has_nul (String c k)); by simplify_eq. }
    exists []. by rewrite app_nil_r.
  - unfold __init__ in Hinit.
    destruct (py_or None (environ w !! "GEMINI_API_KEY")) as [[|c k]|];
      [by simplify_eq| |by simplify_eq].
    destruct (has_nul (String c k)); by simplify_eq.
Qed.

(** X25. With a documents directory that holds no supported file, [main]
    still opens the question loop, but nothing can be asked: the creation
    of the store is the only call ever sent, every question being refused
    before it reaches the service; the run ends as the loop does. *)
Theorem main_without_supported_files (env : Env) (host : Host) (fuel : nat)
    (stdin : list Input) (w : World) (c : Ascii.ascii) (k : string)
    (store : FileSearchStore) :
  environ w !! "GEMINI_API_KEY" = Some (String c k) →
  has_nul (String c k) = false →
  file_search_stores_create env "my-knowledge-base" (effects w) = inr store →
  path_exists env "documents" = inr true →
  is_dir host "documents" = true →
  glob host "documents" "*.txt" ++ glob host "documents" "*.pdf"
    ++ glob host "documents" "*.md" = [] →
  (main env host fuel stdin w).1 =
    (if existsb (ends_session host) stdin then Ok () else OutOfFuel) ∧
  effects (main env host fuel stdin w).2 =
    effects w ++ [StoresCreate "my-knowledge-base"].
Proof.
  intros Henv Hkey Hcreate Hfound Hdir Hglob. unfold main, __init__, py_or.
  cbn [truthy]. rewrite Henv, Hkey.
  unfold main_session, create_store. run. unfold remote.
  cbn [self world effects with_line with_effect with_environ].
  rewrite Hcreate. run. rewrite Hfound. run. rewrite Hdir. cbn [andb].
  rewrite Hglob. run.
  match goal with |- context [interactive_loop env host fuel stdin ?s1] =>
    destruct (interactive_loop_run env host fuel stdin s1)
      as (s' & -> & Hself & Heff) end.
  rewrite flat_map_generation_of_nil, app_nil_r in Heff by (by left).
  destruct (existsb (ends_session host) stdin); run; cbn [fst snd world];
    (split; [done|]); cbn; by rewrite ?Heff.
Qed.

Lemma main_without_supported_files_witness :
  (main service_ready host_empty 3 [Line "why?"; Line " Quit "]
     world_with_key).1 = Ok () ∧
  effects (main service_ready host_empty 3 [Line "why?"; Line " Quit "]
             world_with_key).2 = [StoresCreate "my-knowledge-base"].
Proof.
  apply (main_without_supported_files service_ready host_empty 3
           [Line "why?"; Line " Quit "] world_with_key
           (Ascii.ascii_of_nat 115) "ecret"
           {| fss_name := "fileSearchStores/my-knowledge-base" |});
    reflexivity.
Defined.

(** ** Ingestion, continued *)

(** X26. When the upload is refused, [upload_file] raises the error of the
    upload at once: the upload is the only call sent, no import is
    attempted, and the object is as it was. *)
Theorem upload_file_upload_refused (env : Env) (fuel : nat)
    (file_path : string) (s : State) (store : FileSearchStore) (e : exn) :
  file_search_store (self s) = Some store →
  path_exists env file_path = inr true →
  files_upload env (path_str env file_path) (path_name env file_path)
    (effects (world s)) = inl e →
  ∃ s',
    upload_file env fuel file_path s = (Raise e, s') ∧
    self s' = self s ∧
    effects (world s') =
      effects (world s) ++
      [FilesUpload (path_str env file_path) (path_name env file_path)].
Proof.
  intros Hstore Hpath Hupload.
  unfold upload_file. run. rewrite Hstore, Hpath. run. cbn [negb].
  run. unfold remote at 1. cbn [self world effects with_line with_effect].
  rewrite Hupload. by eexists.
Qed.

Lemma upload_file_upload_refused_witness :
  ∃ s',
    upload_file service_upload_refused 3 "notes.txt" (session [] (Some kb)) =
      (Raise (RemoteError "413 Payload Too Large"), s') ∧
    self s' = self (session [] (Some kb)) ∧
    effects (world s') = [FilesUpload "notes.txt" "notes.txt"].
Proof.
  apply (upload_file_upload_refused service_upload_refused 3 "notes.txt"
           (session [] (Some kb)) kb (RemoteError "413 Payload Too Large"));
    reflexivity.
Defined.

(** ** [main] on concrete hosts *)

Example main_session_with_questions :
  effects (main service_ready (host_ascii true) 3
             [Line "  why?  "; Line "   "; Line " QUIT "; Line "never read"]
             world_with_key).2 =
  [StoresCreate "my-knowledge-base";
   FilesUpload "documents/notes.txt" "documents/notes.txt";
   StoresImportFile "fileSearchStores/my-knowledge-base"
     "files/documents/notes.txt";
   Sleep 2;
   OperationsGet {| op_name := "operations/files/documents/notes.txt";
                    done := false |};
   Sleep 2;
   OperationsGet {| op_name := "operations/files/documents/notes.txt";
                    done := false |};
   FilesUpload "documents/paper.pdf" "documents/paper.pdf";
   StoresImportFile "fileSearchStores/my-knowledge-base"
     "files/documents/paper.pdf";
   Sleep 2;
   OperationsGet {| op_name := "operations/files/documents/paper.pdf";
                    done := false |};
   GenerateContent "gemini-2.5-pro" "why?"
     ["fileSearchStores/my-knowledge-base"]].
Proof. vm_compute. reflexivity. Qed.

Example main_at_end_of_input :
  (main service_ready (host_ascii true) 3 [Line "why?"] world_with_key).1 =
  OutOfFuel.
Proof. vm_compute. reflexivity. Qed.
